(** * Band-gap backend (src/backend.py): a shallow embedding and its properties

    The Flask application keeps one module-level list, [EXPERIMENTAL_DATA_LOG],
    and exposes three JSON endpoints over it:
    - [log_data]            (POST /api/log_data)
    - [get_all_data]        (GET  /api/get_all_data)
    - [calculate_band_gap]  (GET  /api/calculate_band_gap)

    Python floats are IEEE-754 binary64 values, so they are embedded as Rocq's
    primitive floats.  JSON payloads are an inductive type, Python dicts are
    [gmap string json], exceptions are values of an error monad, and the
    handlers run in a state monad over the module-level list.  The calls into
    libm and NumPy ([math.log], [np.polyfit], [np.corrcoef], the float64 power)
    the string grammar of [float()] and the diagnostic [print] of [log_data]
    are parameters of the development: functions of their arguments, about
    which nothing else is assumed.  Requests are handled one at a time. *)

From Stdlib Require Import ZArith List Floats Lia.
From stdpp Require Import gmap strings list fin_maps.

Set Warnings "-inexact-float,-register-all".

Open Scope Z_scope.
Set Default Proof Using "Type".

(** ** JSON values and Python dicts *)

Inductive json :=
  | JNull
  | JBool (b : bool)
  | JInt (z : Z)
  | JFloat (f : float)
  | JStr (s : string)
  | JArr (l : list json)
  | JObj (m : gmap string json).

(** Python's [type(v).__name__] for a decoded JSON value. *)
Definition type_name (v : json) : string :=
  match v with
  | JNull => "NoneType"
  | JBool _ => "bool"
  | JInt _ => "int"
  | JFloat _ => "float"
  | JStr _ => "str"
  | JArr _ => "list"
  | JObj _ => "dict"
  end.

(** ** Exceptions and the error monad *)

Record exception := Exc { exc_type : string; exc_str : string }.

Inductive result (A : Type) :=
  | Ok (a : A)
  | Raise (e : exception).
Arguments Ok {A} a.
Arguments Raise {A} e.

Definition rbind {A B} (r : result A) (k : A -> result B) : result B :=
  match r with
  | Ok a => k a
  | Raise e => Raise e
  end.

Declare Scope py_scope.
Delimit Scope py_scope with py.
Notation "x <- r ;; k" := (rbind r (fun x => k))
  (at level 100, r at next level, right associativity) : py_scope.

(** ** The process state

    [EXPERIMENTAL_DATA_LOG] is the module-level list.  [numpy_calls] is a
    ghost trace of the calls made into NumPy, kept so that "no fit is
    attempted" is a statement about a run. *)

Inductive np_call :=
  | CallPolyfit (x y : list float)
  | CallCorrcoef (x y : list float).

Record world := World {
  EXPERIMENTAL_DATA_LOG : list (gmap string json);
  numpy_calls : list np_call
}.

Definition M (A : Type) : Type := world -> result A * world.

Definition ret {A} (a : A) : M A := fun w => (Ok a, w).

Definition raise {A} (e : exception) : M A := fun w => (Raise e, w).

Definition bind {A B} (m : M A) (k : A -> M B) : M B :=
  fun w => match m w with
           | (Ok a, w') => k a w'
           | (Raise e, w') => (Raise e, w')
           end.

(** [try: m except Exception as e: h e] *)
Definition try_except {A} (m : M A) (h : exception -> M A) : M A :=
  fun w => match m w with
           | (Ok a, w') => (Ok a, w')
           | (Raise e, w') => h e w'
           end.

Definition lift {A} (r : result A) : M A := fun w => (r, w).

Declare Scope m_scope.
Delimit Scope m_scope with M.
Notation "x <- m ;; k" := (bind m (fun x => k))
  (at level 100, m at next level, right associativity) : m_scope.
Notation "m ;;; k" := (bind m (fun _ => k))
  (at level 100, right associativity) : m_scope.

(** Reading the global list, and [EXPERIMENTAL_DATA_LOG.append(data)]. *)
Definition get_log : M (list (gmap string json)) :=
  fun w => (Ok (EXPERIMENTAL_DATA_LOG w), w).

Definition log_append (data : gmap string json) : M unit :=
  fun w => (Ok tt, {| EXPERIMENTAL_DATA_LOG := EXPERIMENTAL_DATA_LOG w ++ [data];
                      numpy_calls := numpy_calls w |}).

Definition record_call (c : np_call) : M unit :=
  fun w => (Ok tt, {| EXPERIMENTAL_DATA_LOG := EXPERIMENTAL_DATA_LOG w;
                      numpy_calls := numpy_calls w ++ [c] |}).

(** ** Responses: the JSON document given to [jsonify] and the status code *)

Definition response : Type := json * Z.

Definition error_body (msg : string) : json :=
  JObj {[ "error" := JStr msg ]}.

(** ** Python builtins used by the handlers *)

(** [int.__float__]: correctly rounded, [OverflowError] past the binary64
    range. *)
Definition float_of_int (z : Z) : result float :=
  match binary_normalize prec emax z 0 false with
  | S754_infinity _ =>
      Raise (Exc "OverflowError" "int too large to convert to float")
  | sf => Ok (SF2Prim sf)
  end.

(** [d.get(k)]: the value, or [None] when the key is absent. *)
Definition dict_get (d : gmap string json) (k : string) : json :=
  default JNull (d !! k).

(** The receiver of [data.get(...)] must be a dict; every other decoded JSON
    value has no attribute [get]. *)
Definition as_dict (v : json) : result (gmap string json) :=
  match v with
  | JObj d => Ok d
  | _ => Raise (Exc "AttributeError"
                  ("'" +:+ type_name v +:+ "' object has no attribute 'get'"))
  end.

(** The list is empty when the module is loaded. *)
Definition initial_world : world :=
  {| EXPERIMENTAL_DATA_LOG := []; numpy_calls := [] |}.

(** Signed zeros of the binary64 specification. *)
Definition is_zero_sf (x : spec_float) : bool :=
  match x with
  | S754_zero _ => true
  | _ => false
  end.

(** ** Sample oracles and inputs

    Stand-ins for the external functions, and a few payloads and lists, used
    to run the model on concrete inputs.  The properties of the backend are
    proved for arbitrary oracles. *)
Module Sample.

Definition float_of_str (s : string) : result float :=
  if String.eqb s "inf" then Ok infinity
  else if String.eqb s "nan" then Ok nan
  else Raise (Exc "ValueError" ("could not convert string to float: '" +:+ s +:+ "'")).

(** A standard output that takes every line. *)
Definition print_ok (temperature current : float) : result unit := Ok tt.

(** A standard output with an ASCII encoding, which has no degree sign. *)
Definition print_ascii (temperature current : float) : result unit :=
  Raise (Exc "UnicodeEncodeError"
           "'ascii' codec can't encode character '\xb0' in position 19: ordinal not in range(128)").

(** First-order approximation of the logarithm around 1. *)
Definition log (x : float) : float := (x - 1)%float.

Definition sum (l : list float) : float := fold_left PrimFloat.add l 0%float.

Definition dot (x y : list float) : float :=
  sum (zip_with PrimFloat.mul x y).

Definition count (l : list float) : float :=
  sum (map (fun _ => 1%float) l).

(** Least squares in closed form. *)
Definition polyfit (x y : list float) : result (float * float) :=
  let n := count x in
  let slope :=
    ((n * dot x y - sum x * sum y) / (n * dot x x - sum x * sum x))%float in
  Ok (slope, ((sum y - slope * sum x) / n)%float).

Definition corrcoef (x y : list float) : result float :=
  let n := count x in
  Ok ((n * dot x y - sum x * sum y) /
      PrimFloat.sqrt ((n * dot x x - sum x * sum x) *
                      (n * dot y y - sum y * sum y)))%float.

Definition pow (r : float) (n : Z) : float :=
  Z.iter n (fun a => (a * r)%float) 1%float.

Definition reading (t c v : float) : gmap string json :=
  {[ "temperature" := JFloat t; "current" := JFloat c; "voltage" := JFloat v ]}.

(** The readings of the specification's example, with one reading below
    the threshold among them. *)
Definition four_readings : list (gmap string json) :=
  [reading 25 0.001 0.5; reading 30 1e-10 0.5;
   reading 50 0.002 0.5; reading 75 0.004 0.5].

Definition absolute_zero : gmap string json := reading (-273.15) 1 0.5.

Definition absolute_zero_log : list (gmap string json) := [absolute_zero].

Definition missing_voltage : gmap string json :=
  {[ "temperature" := JInt 25; "current" := JFloat 0.001 ]}.

Definition good_payload : gmap string json :=
  {[ "temperature" := JInt 25; "current" := JFloat 0.001;
     "voltage" := JBool true ]}.

End Sample.

Section Backend.

(** The string grammar of [float(s)] (signs, exponents, [inf], [nan],
    surrounding blanks); a [ValueError] when [s] is not in it. *)
Variable float_of_str : string -> result float.

(** Line 45: the f-string over the two stored floats and its [print].  The
    line is written, or the write raises (a standard output whose encoding
    has no degree sign, a closed pipe). *)
Variable print_logged : float -> float -> result unit.

(** libm's [log] on a positive or NaN argument. *)
Variable libm_log : float -> float.

(** [np.polyfit(x, y, 1)], giving [(slope, intercept)], the [0,1] entry of
    [np.corrcoef(x, y)], and the power of NumPy's float64 scalars. *)
Variable np_polyfit1 : list float -> list float -> result (float * float).
Variable np_corrcoef01 : list float -> list float -> result float.
Variable float64_pow : float -> Z -> float.

(** [float(v)] for a decoded JSON value [v]. *)
Definition py_float (v : json) : result float :=
  match v with
  | JFloat f => Ok f
  | JInt z => float_of_int z
  | JBool b => Ok (if b then 1 else 0)%float
  | JStr s => float_of_str s
  | JNull | JArr _ | JObj _ =>
      Raise (Exc "TypeError"
               ("float() argument must be a string or a real number, not '"
                +:+ type_name v +:+ "'"))
  end.

(** ** POST /api/log_data

    [got] is what [request.get_json()] does for the request at hand: the
    decoded body, or the exception it raises.  The three assignments update
    the request's own dict, which is appended once all of them are done.  The
    diagnostic [print] sits inside the [try], between the append and the
    return: when it raises, the [except] clause answers and the entry is
    already in the list. *)

Definition log_data_try (got : result json) : M response :=
  (body <- lift got ;;
   data <- lift (as_dict body) ;;
   temperature <- lift (py_float (dict_get data "temperature")) ;;
   let data := <["temperature" := JFloat temperature]> data in
   current <- lift (py_float (dict_get data "current")) ;;
   let data := <["current" := JFloat current]> data in
   voltage <- lift (py_float (dict_get data "voltage")) ;;
   let data := <["voltage" := JFloat voltage]> data in
   log_append data ;;;
   lift (print_logged temperature current) ;;;
   log <- get_log ;;
   ret (JObj {[ "message" := JStr "Data logged successfully";
                "id" := JInt (Z.of_nat (length log) - 1) ]}, 201))%M.

Definition log_data (got : result json) : M response :=
  try_except (log_data_try got)
    (fun e => ret (error_body ("Failed to log data: " +:+ exc_str e), 500)).

(** ** GET /api/get_all_data *)

Definition get_all_data : M response :=
  (log <- get_log ;;
   ret (JObj {[ "data" := JArr (JObj <$> log);
                "count" := JInt (Z.of_nat (length log)) ]}, 200))%M.

(** ** GET /api/calculate_band_gap *)

(** Boltzmann constant in eV/K. *)
Definition k_B : float := 8.617e-5%float.

(** [data[k]] for an entry of the list.  Entries are written by [log_data]
    only, which stores float objects under the three keys ([accepted_ok] and
    [ingestion_atomic] below); the arithmetic of the estimator is modelled on
    floats, and an entry of another shape, which no run produces, is given an
    exception. *)
Definition float_item (data : gmap string json) (k : string) : result float :=
  match data !! k with
  | Some (JFloat f) => Ok f
  | Some v => Raise (Exc "TypeError" ("unsupported operand type: '" +:+ type_name v +:+ "'"))
  | None => Raise (Exc "KeyError" ("'" +:+ k +:+ "'"))
  end.

(** [a / b] on Python floats. *)
Definition py_truediv (a b : float) : result float :=
  if (b =? 0)%float
  then Raise (Exc "ZeroDivisionError" "float division by zero")
  else Ok (a / b)%float.

(** [math.log(x)] on a Python float: a [ValueError] for zero and negative
    arguments, NaN and +inf are passed through libm. *)
Definition math_log (x : float) : result float :=
  if (x <=? 0)%float
  then Raise (Exc "ValueError" "math domain error")
  else Ok (libm_log x).

(** The [for data in EXPERIMENTAL_DATA_LOG] loop, with the two local lists
    as accumulators. *)
Fixpoint transform_loop (log : list (gmap string json))
    (X_inv_T Y_ln_I : list float) : result (list float * list float) :=
  match log with
  | [] => Ok (X_inv_T, Y_ln_I)
  | data :: rest =>
      (temperature <- float_item data "temperature" ;;
       let T_kelvin := (temperature + 273.15)%float in
       current <- float_item data "current" ;;
       if (1e-9 <? current)%float then
         x <- py_truediv 1 T_kelvin ;;
         y <- math_log current ;;
         transform_loop rest (X_inv_T ++ [x]) (Y_ln_I ++ [y])
       else
         transform_loop rest X_inv_T Y_ln_I)%py
  end.

Definition polyfit (x y : list float) : M (float * float) :=
  (record_call (CallPolyfit x y) ;;; lift (np_polyfit1 x y))%M.

Definition corrcoef (x y : list float) : M float :=
  (record_call (CallCorrcoef x y) ;;; lift (np_corrcoef01 x y))%M.

Definition not_enough_msg : string :=
  "Not enough valid data points for calculation (need at least 2 non-zero current readings).".

(** The body of the [try] block: slope, band gap and squared correlation. *)
Definition fit_try (X_inv_T Y_ln_I : list float) : M (float * float * float) :=
  (si <- polyfit X_inv_T Y_ln_I ;;
   let slope := fst si in
   let Eg := (-2 * k_B * slope)%float in
   r <- corrcoef X_inv_T Y_ln_I ;;
   let r_squared := float64_pow r 2 in
   ret (Eg, r_squared, slope))%M.

Definition success_body (Eg r_squared slope : float)
    (X_inv_T Y_ln_I : list float) : json :=
  JObj {[ "message" := JStr "Calculation successful";
          "band_gap_eV" := JFloat Eg;
          "r_squared" := JFloat r_squared;
          "slope_value" := JFloat slope;
          "regression_points" :=
            JObj {[ "inv_T" := JArr (JFloat <$> X_inv_T);
                    "ln_I" := JArr (JFloat <$> Y_ln_I) ]} ]}.

Definition calculate_band_gap : M response :=
  (log <- get_log ;;
   pts <- lift (transform_loop log [] []) ;;
   let X_inv_T := fst pts in
   let Y_ln_I := snd pts in
   if (length X_inv_T <? 2)%nat then
     ret (error_body not_enough_msg, 400)
   else
     fit <- try_except
              (v <- fit_try X_inv_T Y_ln_I ;; ret (inl v))
              (fun e => ret (inr (error_body ("Linear fit failed: " +:+ exc_str e), 500))) ;;
     match fit with
     | inr resp => ret resp
     | inl (Eg, r_squared, slope) =>
         ret (success_body Eg r_squared slope X_inv_T Y_ln_I, 200)
     end)%M.

(** ** The server: requests handled one after the other *)

Inductive request :=
  | PostLogData (got : result json)
  | GetAllData
  | GetCalculateBandGap.

Definition handle (r : request) : M response :=
  match r with
  | PostLogData got => log_data got
  | GetAllData => get_all_data
  | GetCalculateBandGap => calculate_band_gap
  end.

(** An exception that leaves a view function is turned into an error page
    by the framework; the process, and its list, live on. *)
Fixpoint serve (rs : list request) (w : world) : list (result response) * world :=
  match rs with
  | [] => ([], w)
  | r :: rs' =>
      let (out, w') := handle r w in
      let (outs, w'') := serve rs' w' in
      (out :: outs, w'')
  end.

(** ** Notions used to state the properties *)

(** The float stored under [k], if there is one. *)
Definition float_field (d : gmap string json) (k : string) : option float :=
  match d !! k with
  | Some (JFloat f) => Some f
  | _ => None
  end.

Definition entry_ok (d : gmap string json) : Prop :=
  is_Some (float_field d "temperature") /\
  is_Some (float_field d "current") /\
  is_Some (float_field d "voltage").

Definition log_ok (log : list (gmap string json)) : Prop := Forall entry_ok log.

Definition temperature_of (d : gmap string json) : float :=
  default 0%float (float_field d "temperature").

Definition current_of (d : gmap string json) : float :=
  default 0%float (float_field d "current").

(** The test [current > 1e-9] of the loop. *)
Definition included (d : gmap string json) : bool :=
  (1e-9 <? current_of d)%float.

(** The transformed point of an entry, where the division is defined. *)
Definition point (d : gmap string json) : float * float :=
  (1 / (temperature_of d + 273.15), libm_log (current_of d))%float.

(** The transformed point as the loop computes it, exceptions included. *)
Definition transform (d : gmap string json) : result (float * float) :=
  (x <- py_truediv 1 (temperature_of d + 273.15) ;;
   y <- math_log (current_of d) ;;
   Ok (x, y))%py.

Fixpoint transform_all (ds : list (gmap string json)) : result (list (float * float)) :=
  match ds with
  | [] => Ok []
  | d :: ds' =>
      (p <- transform d ;;
       ps <- transform_all ds' ;;
       Ok (p :: ps))%py
  end.

(** The three conversions of [log_data] on a payload dict. *)
Definition normalize (data : gmap string json) : result (gmap string json) :=
  (t <- py_float (dict_get data "temperature") ;;
   c <- py_float (dict_get data "current") ;;
   v <- py_float (dict_get data "voltage") ;;
   Ok (<["voltage" := JFloat v]>
         (<["current" := JFloat c]>
            (<["temperature" := JFloat t]> data))))%py.

(** What a POST contributes to the list: the normalised entry, or the
    exception that aborts the request. *)
Definition ingest (got : result json) : result (gmap string json) :=
  (body <- got ;;
   data <- as_dict body ;;
   normalize data)%py.

(** The entries accepted from a sequence of requests, in submission order. *)
Fixpoint accepted (rs : list request) : list (gmap string json) :=
  match rs with
  | [] => []
  | PostLogData got :: rs' =>
      match ingest got with
      | Ok d => d :: accepted rs'
      | Raise _ => accepted rs'
      end
  | _ :: rs' => accepted rs'
  end.

(** A response is a successful ingestion when its status is 201. *)
Definition created (out : result response) : bool :=
  match out with
  | Ok (_, st) => Z.eqb st 201
  | Raise _ => false
  end.

Definition client_error (st : Z) : Prop := 400 <= st < 500.

(** The three fields of a reading. *)
Definition fields : list string := ["temperature"; "current"; "voltage"].

(** The number of 201 answers in a run. *)
Definition count_created (outs : list (result response)) : nat :=
  length (List.filter created outs).

(** The exception of [1 / 0.0]. *)
Definition zero_division : exception :=
  Exc "ZeroDivisionError" "float division by zero".

(** The state after the given calls into NumPy. *)
Definition with_calls (w : world) (cs : list np_call) : world :=
  {| EXPERIMENTAL_DATA_LOG := EXPERIMENTAL_DATA_LOG w;
     numpy_calls := numpy_calls w ++ cs |}.

(** The working set as the specification describes it, with the division
    taken as defined: the points of the entries that pass the test, in the
    order of the list. *)
Definition working_set (log : list (gmap string json)) : list float * list float :=
  (map (fun d => fst (point d)) (List.filter included log),
   map (fun d => snd (point d)) (List.filter included log)).

(** C1 as the specification words it: on every list the loop ends with that
    working set. *)
Definition working_set_claim (log : list (gmap string json)) : Prop :=
  transform_loop log [] [] = Ok (working_set log).

(** C3 as the specification words it: fewer than two entries with
    current > 1e-9 give the 400 answer. *)
Definition insufficient_data_claim (w : world) : Prop :=
  (length (List.filter included (EXPERIMENTAL_DATA_LOG w)) < 2)%nat ->
  (calculate_band_gap w).1 = Ok (error_body not_enough_msg, 400).

(** ** Facts about binary64 arithmetic

    Two facts the loop depends on: [temperature + 273.15] is a zero for the
    single float -273.15, and a current that passes [current > 1e-9] is in the
    domain of [math.log]. *)

Lemma digits2_pos_size m : digits2_pos m = Pos.size m.
Proof. induction m; simpl; congruence. Qed.

Lemma digits2_pos_lower m : 2 ^ (Zpos (digits2_pos m) - 1) <= Zpos m.
Proof.
  rewrite digits2_pos_size.
  pose proof (Pos.size_le m) as H.
  assert (H' : 2 ^ Zpos (Pos.size m) <= 2 * Zpos m).
  { change 2 with (Zpos 2) at 1. rewrite <- Pos2Z.inj_pow. lia. }
  replace (Zpos (Pos.size m)) with (Zpos (Pos.size m) - 1 + 1) in H' by lia.
  rewrite Z.pow_add_r in H' by lia. lia.
Qed.

Lemma digits2_pos_shl m d :
  Zpos (digits2_pos (Pos.iter xO m d)) = Zpos (digits2_pos m) + Zpos d.
Proof.
  induction d as [|d IH] using Pos.peano_ind.
  - simpl. lia.
  - rewrite Pos.iter_succ. simpl. lia.
Qed.

Lemma shr_1_m r : 0 <= shr_m r -> shr_m (shr_1 r) = shr_m r / 2.
Proof.
  destruct r as [m r s]. simpl. intros Hm.
  destruct m as [|[p|p|]|p]; simpl; try lia; try reflexivity.
  - apply Z.div_unique with 1; lia.
  - apply Z.div_unique with 0; lia.
Qed.

Lemma iter_shr_1_m p : forall r,
  0 <= shr_m r -> shr_m (SpecFloat.iter_pos shr_1 p r) = shr_m r / 2 ^ Zpos p.
Proof.
  induction p as [p IH|p IH|]; intros r Hr; simpl SpecFloat.iter_pos.
  - assert (H1 : 0 <= shr_m (shr_1 r)) by (rewrite shr_1_m by done; apply Z.div_pos; lia).
    assert (H2 : 0 <= shr_m (SpecFloat.iter_pos shr_1 p (shr_1 r)))
      by (rewrite IH by done; apply Z.div_pos; lia).
    rewrite IH, IH, shr_1_m by done.
    rewrite !Z.div_div by lia. f_equal.
    replace (Zpos p~1) with (1 + Zpos p + Zpos p) by lia.
    rewrite !Z.pow_add_r by lia. change (2 ^ 1) with 2. ring.
  - assert (H2 : 0 <= shr_m (SpecFloat.iter_pos shr_1 p r))
      by (rewrite IH by done; apply Z.div_pos; lia).
    rewrite IH, IH by done.
    rewrite !Z.div_div by lia. f_equal.
    replace (Zpos p~0) with (Zpos p + Zpos p) by lia.
    rewrite !Z.pow_add_r by lia. ring.
  - rewrite shr_1_m by done. by rewrite Z.pow_1_r.
Qed.

Lemma shr_record_of_loc_m m l : shr_m (shr_record_of_loc m l) = m.
Proof. by destruct l as [|[]]. Qed.

(** Shifting right down to the format's exponent keeps a positive mantissa
    positive, once the exponent is at least [emin]. *)
Lemma shr_fexp_pos m e l :
  emin <= e ->
  (shr_fexp prec emax (Zpos m) e l).2 >= emin /\
  exists m', shr_m (shr_fexp prec emax (Zpos m) e l).1 = Zpos m'.
Proof.
  intros He. unfold shr_fexp, shr.
  set (n := fexp prec emax (Zdigits2 (Zpos m) + e) - e).
  assert (Hn : n <= Zpos (digits2_pos m) - 1).
  { unfold n, fexp, SpecFloat.emin, prec, emax in *. simpl Zdigits2.
    pose proof (Pos2Z.is_pos (digits2_pos m)). lia. }
  destruct n as [|p|p] eqn:En; simpl; rewrite ?shr_record_of_loc_m; try (split; [lia|eauto]).
  rewrite iter_shr_1_m by (rewrite shr_record_of_loc_m; lia).
  rewrite shr_record_of_loc_m.
  pose proof (digits2_pos_lower m) as Hl.
  assert (Hp : 2 ^ Zpos p <= Zpos m).
  { etrans; [|exact Hl]. apply Z.pow_le_mono_r; lia. }
  assert (Hq : 1 <= Zpos m / 2 ^ Zpos p).
  { apply Z.div_le_lower_bound; lia. }
  destruct (Zpos m / 2 ^ Zpos p) as [|q|q]; [lia| |lia]. eauto.
Qed.

Lemma round_nearest_even_pos m l : exists m', round_nearest_even (Zpos m) l = Zpos m'.
Proof.
  destruct l as [|[]]; simpl; eauto.
  destruct m; simpl; eauto.
Qed.

Lemma binary_round_aux_nonzero s m e :
  emin <= e -> is_zero_sf (binary_round_aux prec emax s (Zpos m) e loc_Exact) = false.
Proof.
  intros He. unfold binary_round_aux.
  destruct (shr_fexp_pos m e loc_Exact He) as [He1 [m1 Hm1]].
  destruct (shr_fexp prec emax (Zpos m) e loc_Exact) as [r1 e1]. simpl in He1, Hm1.
  rewrite Hm1.
  destruct (round_nearest_even_pos m1 (loc_of_shr_record r1)) as [m2 ->].
  destruct (shr_fexp_pos m2 e1 loc_Exact ltac:(lia)) as [He2 [m3 Hm3]].
  destruct (shr_fexp prec emax (Zpos m2) e1 loc_Exact) as [r2 e2]. simpl in He2, Hm3.
  rewrite Hm3. by destruct (e2 <=? emax - prec).
Qed.

Lemma binary_round_nonzero s m e :
  emin <= e -> is_zero_sf (binary_round prec emax s m e) = false.
Proof.
  intros He. unfold binary_round, shl_align.
  destruct (fexp prec emax (Zpos (digits2_pos m) + e) - e) as [|d|d] eqn:Ed;
    try by apply binary_round_aux_nonzero.
  apply binary_round_aux_nonzero.
  unfold fexp, SpecFloat.emin, prec, emax in *. lia.
Qed.

Lemma SFeqb_zero x : SFeqb x (S754_zero false) = is_zero_sf x.
Proof. by destruct x as [[]|[]| |[] m e]. Qed.

(** A sum of two finite floats is a zero only when the aligned mantissas
    cancel. *)
Lemma valid_finite_canonical s m e :
  valid_binary (S754_finite s m e) = true ->
  fexp prec emax (Zpos (digits2_pos m) + e) = e.
Proof.
  unfold FloatAxioms.valid_binary, SpecFloat.valid_binary, bounded, canonical_mantissa.
  intros H. apply andb_prop in H as [H _]. by apply Z.eqb_eq.
Qed.

Lemma shl_align_same m e : shl_align m e e = (m, e).
Proof. unfold shl_align. by rewrite Z.sub_diag. Qed.

Lemma shl_align_lt m e e' :
  e' < e -> exists d, Zpos d = e - e' /\ shl_align m e e' = (Pos.iter xO m d, e').
Proof.
  intros H. unfold shl_align.
  destruct (e' - e) as [|d|d] eqn:E; try lia.
  exists d. split; [lia|done].
Qed.

Lemma aligned_eq_canonical m1 e1 m2 e2 :
  fexp prec emax (Zpos (digits2_pos m1) + e1) = e1 ->
  fexp prec emax (Zpos (digits2_pos m2) + e2) = e2 ->
  (shl_align m1 e1 (Z.min e1 e2)).1 = (shl_align m2 e2 (Z.min e1 e2)).1 ->
  m1 = m2 /\ e1 = e2.
Proof.
  intros H1 H2 H.
  destruct (Z.lt_trichotomy e1 e2) as [Hlt|[->|Hgt]].
  - rewrite Z.min_l in H by lia. rewrite shl_align_same in H.
    destruct (shl_align_lt m2 e2 e1 Hlt) as (d & Hd & E). rewrite E in H. simpl in H.
    subst m1. rewrite digits2_pos_shl in H1.
    replace (Zpos (digits2_pos m2) + Zpos d + e1) with (Zpos (digits2_pos m2) + e2) in H1 by lia.
    lia.
  - rewrite Z.min_id, !shl_align_same in H. by simpl in H.
  - rewrite Z.min_r in H by lia. rewrite shl_align_same in H.
    destruct (shl_align_lt m1 e1 e2 ltac:(lia)) as (d & Hd & E). rewrite E in H. simpl in H.
    subst m2. rewrite digits2_pos_shl in H2.
    replace (Zpos (digits2_pos m1) + Zpos d + e2) with (Zpos (digits2_pos m1) + e1) in H2 by lia.
    lia.
Qed.

Lemma valid_finite_emin s m e :
  valid_binary (S754_finite s m e) = true -> emin <= e.
Proof.
  intros H. apply valid_finite_canonical in H.
  unfold fexp, SpecFloat.emin, prec, emax in *. lia.
Qed.

Lemma add_273_15_zero (t : float) :
  (t + 273.15 =? 0)%float = true -> t = (-273.15)%float.
Proof.
  rewrite FloatAxioms.eqb_spec, FloatAxioms.add_spec.
  change (Prim2SF 0) with (S754_zero false).
  rewrite SFeqb_zero.
  pose proof (Prim2SF_valid t) as Hv.
  assert (Hc : Prim2SF 273.15 = S754_finite false 4805305618032230 (-44)) by (by vm_compute).
  rewrite Hc. clear Hc.
  intros H. apply Prim2SF_inj.
  change (Prim2SF (-273.15)) with (S754_finite true 4805305618032230 (-44)).
  destruct (Prim2SF t) as [s|s| |s m e]; try discriminate H.
  unfold SF64add, SFadd in H.
  pose proof (valid_finite_emin _ _ _ Hv) as He.
  apply valid_finite_canonical in Hv.
  set (ez := Z.min e (-44)) in *.
  assert (Hez : emin <= ez) by (unfold ez, SpecFloat.emin, prec, emax in *; lia).
  set (a := (shl_align m e ez).1) in *.
  set (b := (shl_align 4805305618032230 (-44) ez).1) in *.
  destruct (cond_Zopp s (Zpos a) + cond_Zopp false (Zpos b)) as [|z|z] eqn:Ez.
  - destruct s; simpl in Ez; [|lia].
    assert (Hab : a = b) by lia.
    destruct (aligned_eq_canonical m e 4805305618032230 (-44) Hv eq_refl Hab) as [-> ->].
    done.
  - simpl in H. by rewrite binary_round_nonzero in H.
  - simpl in H. by rewrite binary_round_nonzero in H.
Qed.

Lemma SFcompare_antisym x y :
  SFcompare y x = option_map CompOpp (SFcompare x y).
Proof.
  destruct x as [[]|[]| |[] mx ex], y as [[]|[]| |[] my ey]; try reflexivity; simpl;
    rewrite (Z.compare_antisym ey ex);
    destruct (ey ?= ex); simpl; try reflexivity;
    rewrite (Pos.compare_cont_antisym mx my Eq); simpl;
    by destruct (Pos.compare_cont Eq mx my).
Qed.

Lemma leb_not_ltb (a b : float) :
  (a <=? b)%float = true -> (b <? a)%float = false.
Proof.
  rewrite FloatAxioms.leb_spec, FloatAxioms.ltb_spec.
  unfold SFleb, SFltb. rewrite (SFcompare_antisym (Prim2SF a) (Prim2SF b)).
  by destruct (SFcompare (Prim2SF a) (Prim2SF b)) as [[]|].
Qed.

Lemma included_log_defined (c : float) :
  (1e-9 <? c)%float = true -> (c <=? 0)%float = false.
Proof.
  rewrite FloatAxioms.ltb_spec, FloatAxioms.leb_spec.
  change (Prim2SF 0) with (S754_zero false).
  assert (Hc : Prim2SF 1e-9 = S754_finite false 4835703278458517 (-82)) by (by vm_compute).
  rewrite Hc. clear Hc.
  by destruct (Prim2SF c) as [[]|[]| |[] m e].
Qed.

(** ** Properties of ingestion *)

Lemma dict_get_insert_ne (d : gmap string json) k k' v :
  k <> k' -> dict_get (<[k := v]> d) k' = dict_get d k'.
Proof. intros Hne. unfold dict_get. by rewrite lookup_insert_ne. Qed.

Lemma missing_field_unparsable (data : gmap string json) k :
  data !! k = None -> exists e, py_float (dict_get data k) = Raise e.
Proof. intros H. unfold dict_get. rewrite H. simpl. eauto. Qed.

Lemma normalize_fields data d :
  normalize data = Ok d ->
  py_float (dict_get data "temperature") = Ok (temperature_of d) /\
  py_float (dict_get data "current") = Ok (current_of d).
Proof.
  unfold normalize, rbind. intros H.
  destruct (py_float (dict_get data "temperature")) as [t|]; [|done].
  destruct (py_float (dict_get data "current")) as [c|]; [|done].
  destruct (py_float (dict_get data "voltage")) as [v|]; [|done].
  injection H as <-.
  unfold temperature_of, current_of, float_field.
  rewrite (lookup_insert_ne _ "voltage" "temperature") by done.
  rewrite (lookup_insert_ne _ "current" "temperature") by done.
  rewrite lookup_insert_eq.
  rewrite (lookup_insert_ne _ "voltage" "current") by done.
  by rewrite lookup_insert_eq.
Qed.

(** The state once [data] has been appended. *)
Lemma log_data_spec got w :
  log_data got w =
  match ingest got with
  | Ok d =>
      match print_logged (temperature_of d) (current_of d) with
      | Ok _ =>
          (Ok (JObj {[ "message" := JStr "Data logged successfully";
                       "id" := JInt (Z.of_nat (length (EXPERIMENTAL_DATA_LOG w))) ]}, 201),
           {| EXPERIMENTAL_DATA_LOG := EXPERIMENTAL_DATA_LOG w ++ [d];
              numpy_calls := numpy_calls w |})
      | Raise e =>
          (Ok (error_body ("Failed to log data: " +:+ exc_str e), 500),
           {| EXPERIMENTAL_DATA_LOG := EXPERIMENTAL_DATA_LOG w ++ [d];
              numpy_calls := numpy_calls w |})
      end
  | Raise e => (Ok (error_body ("Failed to log data: " +:+ exc_str e), 500), w)
  end.
Proof.
  unfold ingest. destruct got as [body|e]; [|done]. cbn [rbind].
  destruct (as_dict body) as [data|e] eqn:Ed;
    [|by unfold log_data, try_except, log_data_try, bind, lift; rewrite Ed].
  cbn [rbind].
  destruct (normalize data) as [d|e] eqn:En.
  - destruct (normalize_fields _ _ En) as [Ht Hc].
    revert En. unfold normalize, rbind.
    unfold log_data, try_except, log_data_try, bind, lift. rewrite Ed.
    rewrite Ht. rewrite dict_get_insert_ne by done. rewrite Hc.
    rewrite !dict_get_insert_ne by done.
    destruct (py_float (dict_get data "voltage")) as [v|]; [|done].
    intros E. injection E as E. rewrite E. unfold log_append.
    destruct (print_logged (temperature_of d) (current_of d)); [|done].
    unfold get_log, ret. simpl. rewrite length_app. simpl.
    replace (Z.of_nat (length (EXPERIMENTAL_DATA_LOG w) + 1) - 1)
      with (Z.of_nat (length (EXPERIMENTAL_DATA_LOG w))) by lia.
    done.
  - revert En. unfold normalize, rbind.
    unfold log_data, try_except, log_data_try, bind, lift. rewrite Ed.
    destruct (py_float (dict_get data "temperature")) as [t|]; [|by intros [= <-]].
    rewrite dict_get_insert_ne by done.
    destruct (py_float (dict_get data "current")) as [c|]; [|by intros [= <-]].
    rewrite !dict_get_insert_ne by done.
    destruct (py_float (dict_get data "voltage")) as [v|]; [done|by intros [= <-]].
Qed.

Lemma normalize_entry_ok data d : normalize data = Ok d -> entry_ok d.
Proof.
  unfold normalize, rbind. intros H.
  destruct (py_float (dict_get data "temperature")) as [t|]; [|done].
  destruct (py_float (dict_get data "current")) as [c|]; [|done].
  destruct (py_float (dict_get data "voltage")) as [v|]; [|done].
  injection H as <-.
  unfold entry_ok, float_field.
  rewrite lookup_insert_eq.
  rewrite (lookup_insert_ne _ "voltage" "current") by done.
  rewrite lookup_insert_eq.
  rewrite (lookup_insert_ne _ "voltage" "temperature") by done.
  rewrite (lookup_insert_ne _ "current" "temperature") by done.
  rewrite lookup_insert_eq.
  eauto.
Qed.

Lemma ingest_entry_ok got d : ingest got = Ok d -> entry_ok d.
Proof.
  unfold ingest, rbind. destruct got as [body|]; [|done].
  destruct (as_dict body); [|done]. apply normalize_entry_ok.
Qed.

Lemma accepted_ok rs : log_ok (accepted rs).
Proof.
  induction rs as [|[got| |] rs IH]; simpl; try done.
  - constructor.
  - destruct (ingest got) eqn:E; [|done].
    constructor; [by eapply ingest_entry_ok | done].
Qed.

Lemma accepted_app rs1 rs2 : accepted (rs1 ++ rs2) = accepted rs1 ++ accepted rs2.
Proof.
  induction rs1 as [|[got| |] rs1 IH]; simpl; try done.
  destruct (ingest got); simpl; by rewrite IH.
Qed.

Lemma normalize_id d : entry_ok d -> normalize d = Ok d.
Proof.
  unfold entry_ok, float_field, normalize, dict_get.
  intros ([t Ht] & [c Hc] & [v Hv]).
  destruct (d !! "temperature") as [[]|] eqn:Et; try done.
  destruct (d !! "current") as [[]|] eqn:Ec; try done.
  destruct (d !! "voltage") as [[]|] eqn:Ev; try done.
  cbn [default from_option id py_float rbind].
  rewrite (insert_id d "temperature") by done.
  rewrite (insert_id d "current") by done.
  by rewrite (insert_id d "voltage").
Qed.

(** ** The estimator leaves the list alone and never answers 201 *)

Lemma calculate_band_gap_frame w :
  EXPERIMENTAL_DATA_LOG (calculate_band_gap w).2 = EXPERIMENTAL_DATA_LOG w /\
  created (calculate_band_gap w).1 = false.
Proof.
  unfold calculate_band_gap, bind, get_log, lift.
  destruct (transform_loop (EXPERIMENTAL_DATA_LOG w) [] []) as [[X Y]|e]; [|done].
  simpl. destruct (length X <? 2)%nat; [done|].
  unfold try_except, fit_try, polyfit, corrcoef, bind, record_call, lift, ret.
  simpl.
  destruct (np_polyfit1 X Y) as [[slope intercept]|e]; [|done].
  simpl. destruct (np_corrcoef01 X Y) as [r|e]; done.
Qed.

Lemma get_all_data_spec w :
  get_all_data w =
  (Ok (JObj {[ "data" := JArr (JObj <$> EXPERIMENTAL_DATA_LOG w);
               "count" := JInt (Z.of_nat (length (EXPERIMENTAL_DATA_LOG w))) ]}, 200), w).
Proof. done. Qed.

(** ** Runs of the server *)

Lemma serve_cons r rs w :
  serve (r :: rs) w =
  ((handle r w).1 :: (serve rs (handle r w).2).1, (serve rs (handle r w).2).2).
Proof.
  simpl. destruct (handle r w) as [out w']. simpl.
  by destruct (serve rs w').
Qed.

Lemma serve_length rs w : length (serve rs w).1 = length rs.
Proof.
  revert w. induction rs as [|r rs IH]; intros w; [done|].
  rewrite serve_cons. simpl. by rewrite IH.
Qed.

Lemma handle_log r w :
  EXPERIMENTAL_DATA_LOG (handle r w).2 =
  EXPERIMENTAL_DATA_LOG w ++ accepted [r].
Proof.
  destruct r as [got| |]; simpl.
  - rewrite log_data_spec. destruct (ingest got) as [d|e]; simpl.
    + by destruct (print_logged (temperature_of d) (current_of d)).
    + by rewrite app_nil_r.
  - by rewrite app_nil_r.
  - rewrite app_nil_r. apply calculate_band_gap_frame.
Qed.

Lemma handle_created r w :
  created (handle r w).1 = true ->
  exists got d,
    r = PostLogData got /\ ingest got = Ok d /\
    (handle r w).1 =
      Ok (JObj {[ "message" := JStr "Data logged successfully";
                  "id" := JInt (Z.of_nat (length (EXPERIMENTAL_DATA_LOG w))) ]}, 201).
Proof.
  destruct r as [got| |]; simpl.
  - rewrite log_data_spec. destruct (ingest got) as [d|e] eqn:E; simpl; [|done].
    destruct (print_logged (temperature_of d) (current_of d)); simpl; [|done].
    intros _. by exists got, d.
  - done.
  - intros H. by rewrite (proj2 (calculate_band_gap_frame w)) in H.
Qed.

(** An answer 201 comes with an appended entry; the converse fails when the
    [print] raises. *)
Lemma handle_created_accepted r w :
  (length (List.filter created [(handle r w).1]) <= length (accepted [r]))%nat /\
  ((forall t c, print_logged t c = Ok tt) ->
   length (List.filter created [(handle r w).1]) = length (accepted [r])).
Proof.
  destruct r as [got| |]; simpl.
  - rewrite log_data_spec. destruct (ingest got) as [d|e]; simpl; [|done].
    split.
    + destruct (print_logged (temperature_of d) (current_of d)); simpl; lia.
    + intros Hp. by rewrite Hp.
  - done.
  - by rewrite (proj2 (calculate_band_gap_frame w)).
Qed.

Lemma serve_log rs w :
  EXPERIMENTAL_DATA_LOG (serve rs w).2 = EXPERIMENTAL_DATA_LOG w ++ accepted rs.
Proof.
  revert w. induction rs as [|r rs IH]; intros w.
  - simpl. by rewrite app_nil_r.
  - rewrite serve_cons. simpl fst; simpl snd.
    rewrite IH, handle_log.
    change (r :: rs) with ([r] ++ rs). rewrite accepted_app.
    by rewrite app_assoc.
Qed.

(** Every list of well-formed entries is the list of some run: the run that
    posts its entries one by one. *)
Lemma log_ok_reachable log :
  log_ok log ->
  EXPERIMENTAL_DATA_LOG
    (serve ((fun d => PostLogData (Ok (JObj d))) <$> log) initial_world).2 = log.
Proof.
  intros Hok. rewrite serve_log. simpl.
  induction Hok as [|d log Hd _ IH]; [done|].
  cbn [fmap list_fmap accepted ingest rbind as_dict].
  by rewrite (normalize_id _ Hd), IH.
Qed.

Lemma serve_count rs w :
  (count_created (serve rs w).1 <= length (accepted rs))%nat /\
  ((forall t c, print_logged t c = Ok tt) ->
   count_created (serve rs w).1 = length (accepted rs)).
Proof.
  revert w. induction rs as [|r rs IH]; intros w; [done|].
  rewrite serve_cons. unfold count_created in *. simpl fst.
  change (r :: rs) with ([r] ++ rs). rewrite accepted_app, length_app.
  destruct (handle_created_accepted r w) as [Hle Heq].
  destruct (IH (handle r w).2) as [IHle IHeq].
  cbn [List.filter] in *.
  destruct (created (handle r w).1); cbn [length] in *.
  - split; [lia|]. intros Hp. rewrite (IHeq Hp). specialize (Heq Hp). lia.
  - split; [lia|]. intros Hp. rewrite (IHeq Hp). specialize (Heq Hp). lia.
Qed.

Lemma serve_ids rs w i r out :
  rs !! i = Some r ->
  (serve rs w).1 !! i = Some out ->
  created out = true ->
  exists got d,
    r = PostLogData got /\ ingest got = Ok d /\
    out = Ok (JObj {[ "message" := JStr "Data logged successfully";
                      "id" := JInt (Z.of_nat (length (EXPERIMENTAL_DATA_LOG w ++
                                                        accepted (take i rs)))) ]}, 201) /\
    (EXPERIMENTAL_DATA_LOG w ++ accepted rs) !!
      length (EXPERIMENTAL_DATA_LOG w ++ accepted (take i rs)) = Some d.
Proof.
  revert w i. induction rs as [|r0 rs IH]; intros w i Hr Ho Hc; [done|].
  rewrite serve_cons in Ho. simpl fst in Ho.
  destruct i as [|i]; simpl in Hr, Ho.
  - injection Hr as ->. injection Ho as <-.
    destruct (handle_created r w Hc) as (got & d & -> & Hi & Hout).
    exists got, d. simpl take. simpl accepted at 1. rewrite app_nil_r.
    repeat split; try done.
    simpl. rewrite Hi.
    rewrite app_nil_r. by apply list_lookup_middle.
  - destruct (IH _ _ Hr Ho Hc) as (got & d & -> & Hi & Hout & Hl).
    exists got, d. rewrite handle_log in Hout, Hl.
    simpl take. change (r0 :: ?l) with ([r0] ++ l).
    rewrite !accepted_app, !app_assoc.
    by repeat split.
Qed.

(** ** The transform loop *)

Lemma float_item_field d k :
  is_Some (float_field d k) ->
  float_item d k = Ok (default 0%float (float_field d k)).
Proof.
  unfold float_field, float_item. intros [f Hf].
  destruct (d !! k) as [[]|]; try done.
Qed.

(** The loop transforms, in order, exactly the entries that pass the test;
    the other entries are not looked at any further. *)
Lemma transform_loop_spec log :
  log_ok log ->
  forall X Y,
    transform_loop log X Y =
    (ps <- transform_all (List.filter included log) ;;
     Ok (X ++ map fst ps, Y ++ map snd ps))%py.
Proof.
  induction 1 as [|d log (Ht & Hc & _) _ IH]; intros X Y.
  - simpl. by rewrite !app_nil_r.
  - cbn [transform_loop List.filter].
    rewrite (float_item_field _ _ Ht), (float_item_field _ _ Hc).
    cbn [rbind]. fold (temperature_of d) (current_of d).
    change (1e-9 <? current_of d)%float with (included d).
    destruct (included d); [|apply IH].
    cbn [transform_all]. unfold transform.
    destruct (py_truediv 1 (temperature_of d + 273.15)) as [x|e]; [|done].
    cbn [rbind].
    destruct (math_log (current_of d)) as [y|e]; [|done].
    cbn [rbind]. rewrite IH.
    destruct (transform_all (List.filter included log)) as [ps|e]; [|done].
    cbn [rbind map fst snd].
    by rewrite <- !app_assoc.
Qed.

Lemma transform_defined d :
  included d = true ->
  temperature_of d <> (-273.15)%float ->
  transform d = Ok (point d).
Proof.
  intros Hi Ht. unfold transform, point, py_truediv, math_log.
  destruct (temperature_of d + 273.15 =? 0)%float eqn:E.
  - by apply add_273_15_zero in E.
  - cbn [rbind]. by rewrite (included_log_defined _ Hi).
Qed.

Lemma transform_absolute_zero d :
  temperature_of d = (-273.15)%float ->
  transform d = Raise zero_division.
Proof. intros Ht. unfold transform. by rewrite Ht. Qed.

Lemma transform_cases d :
  included d = true ->
  transform d = Ok (point d) \/ transform d = Raise zero_division.
Proof.
  intros Hi. unfold transform, point, py_truediv, math_log.
  destruct (temperature_of d + 273.15 =? 0)%float; [by right|left].
  cbn [rbind]. by rewrite (included_log_defined _ Hi).
Qed.

Lemma transform_all_defined ds :
  Forall (fun d => included d = true /\ temperature_of d <> (-273.15)%float) ds ->
  transform_all ds = Ok (map point ds).
Proof.
  induction 1 as [|d ds [Hi Ht] _ IH]; [done|].
  cbn [transform_all map]. rewrite (transform_defined _ Hi Ht), IH. done.
Qed.

Lemma transform_all_absolute_zero ds d :
  Forall (fun d => included d = true) ds ->
  d ∈ ds ->
  temperature_of d = (-273.15)%float ->
  transform_all ds = Raise zero_division.
Proof.
  induction 1 as [|d0 ds Hi _ IH]; intros Hin Ht.
  - by apply not_elem_of_nil in Hin.
  - cbn [transform_all].
    apply elem_of_cons in Hin as [<-|Hin].
    + by rewrite (transform_absolute_zero _ Ht).
    + destruct (transform_cases _ Hi) as [-> | ->]; [|done].
      cbn [rbind]. by rewrite IH.
Qed.

Lemma filter_included_Forall log :
  Forall (fun d => included d = true) (List.filter included log).
Proof.
  apply List.Forall_forall. intros d Hd.
  by apply List.filter_In in Hd as [_ Hd].
Qed.

Lemma transform_all_length ds ps :
  transform_all ds = Ok ps -> length ps = length ds.
Proof.
  revert ps. induction ds as [|d ds IH]; intros ps; simpl.
  - by intros [= <-].
  - destruct (transform d); [|done]. simpl.
    destruct (transform_all ds) as [ps'|]; [|done]. simpl.
    intros [= <-]. simpl. f_equal. by apply IH.
Qed.

(** ** The estimator, case by case *)

Lemma calculate_band_gap_spec w :
  calculate_band_gap w =
  match transform_loop (EXPERIMENTAL_DATA_LOG w) [] [] with
  | Raise e => (Raise e, w)
  | Ok (X, Y) =>
      if (length X <? 2)%nat then (Ok (error_body not_enough_msg, 400), w)
      else
        match np_polyfit1 X Y with
        | Raise e =>
            (Ok (error_body ("Linear fit failed: " +:+ exc_str e), 500),
             with_calls w [CallPolyfit X Y])
        | Ok (slope, intercept) =>
            match np_corrcoef01 X Y with
            | Raise e =>
                (Ok (error_body ("Linear fit failed: " +:+ exc_str e), 500),
                 with_calls w [CallPolyfit X Y; CallCorrcoef X Y])
            | Ok r =>
                (Ok (success_body (-2 * k_B * slope) (float64_pow r 2) slope X Y, 200),
                 with_calls w [CallPolyfit X Y; CallCorrcoef X Y])
            end
        end
  end.
Proof.
  unfold calculate_band_gap, bind, get_log, lift.
  destruct (transform_loop (EXPERIMENTAL_DATA_LOG w) [] []) as [[X Y]|e]; [|done].
  simpl. destruct (length X <? 2)%nat; [done|].
  unfold try_except, fit_try, polyfit, corrcoef, bind, record_call, lift, ret,
    with_calls.
  simpl.
  destruct (np_polyfit1 X Y) as [[slope intercept]|e]; [|done].
  simpl. destruct (np_corrcoef01 X Y) as [r|e]; simpl; by rewrite <- app_assoc.
Qed.

(** ** The claims about ingestion *)

Lemma normalize_fails data k e :
  k ∈ fields ->
  py_float (dict_get data k) = Raise e ->
  exists k' e',
    k' ∈ fields /\ py_float (dict_get data k') = Raise e' /\
    normalize data = Raise e'.
Proof.
  intros Hk He. unfold normalize.
  destruct (py_float (dict_get data "temperature")) as [t|e1] eqn:E1.
  2:{ exists "temperature", e1. repeat split; [repeat constructor|done..]. }
  destruct (py_float (dict_get data "current")) as [c|e2] eqn:E2.
  2:{ exists "current", e2. repeat split; [repeat constructor|done..]. }
  destruct (py_float (dict_get data "voltage")) as [v|e3] eqn:E3.
  2:{ exists "voltage", e3. repeat split; [repeat constructor|done..]. }
  unfold fields in Hk.
  apply elem_of_cons in Hk as [->|Hk]; [by rewrite E1 in He|].
  apply elem_of_cons in Hk as [->|Hk]; [by rewrite E2 in He|].
  apply elem_of_cons in Hk as [->|Hk]; [by rewrite E3 in He|].
  by apply not_elem_of_nil in Hk.
Qed.

(** C4. Ingestion is atomic.  When one of the three fields of the payload is
    missing or is not accepted by [float()], [log_data] answers with its error
    response and the world, hence the list, its length and its entries, is
    the one before the call.  Consequently, after any sequence of requests
    every entry of the list holds a float under each of the three keys. *)
Theorem ingestion_atomic :
  (forall (data : gmap string json) (k : string) (w : world),
      k ∈ fields ->
      (data !! k = None \/ exists e, py_float (dict_get data k) = Raise e) ->
      exists msg,
        log_data (Ok (JObj data)) w = (Ok (error_body msg, 500), w)) /\
  (forall rs : list request,
      log_ok (EXPERIMENTAL_DATA_LOG (serve rs initial_world).2)).
Proof.
  split.
  - intros data k w Hk Hbad.
    assert (exists e, py_float (dict_get data k) = Raise e) as [e He].
    { destruct Hbad as [Hm|?]; [by apply missing_field_unparsable|done]. }
    destruct (normalize_fails data k e Hk He) as (k' & e' & _ & _ & Hn).
    exists ("Failed to log data: " +:+ exc_str e').
    rewrite log_data_spec. unfold ingest. cbn [rbind as_dict]. by rewrite Hn.
  - intros rs. rewrite serve_log. simpl. apply accepted_ok.
Qed.

(** C5 (amended). For every payload with a missing or unparsable field,
    [log_data] reports the failure as ["Failed to log data: "] followed by
    the message of the conversion error of such a field (the one that stops
    the conversions, taken in the order temperature, current, voltage), with
    status code 500, which is in the server-error class and not in the
    client-error class. *)
Theorem ingestion_failure_report (data : gmap string json) (k : string) (w : world) :
  k ∈ fields ->
  (data !! k = None \/ exists e, py_float (dict_get data k) = Raise e) ->
  exists k' e',
    k' ∈ fields /\
    py_float (dict_get data k') = Raise e' /\
    normalize data = Raise e' /\
    (log_data (Ok (JObj data)) w).1 =
      Ok (error_body ("Failed to log data: " +:+ exc_str e'), 500) /\
    500 <= 500 < 600 /\ ~ client_error 500.
Proof.
  intros Hk Hbad.
  assert (exists e, py_float (dict_get data k) = Raise e) as [e He].
  { destruct Hbad as [Hm|?]; [by apply missing_field_unparsable|done]. }
  destruct (normalize_fails data k e Hk He) as (k' & e' & Hk' & He' & Hn).
  exists k', e'. repeat split; try done; try lia.
  - rewrite log_data_spec. unfold ingest. cbn [rbind as_dict]. by rewrite Hn.
  - unfold client_error. lia.
Qed.

(** X19. After any sequence of requests from the initial state,
    [get_all_data] returns, in submission order, the entries of the POSTs
    whose three fields converted, and their number as [count].  The
    answers 201 are at most that many, and exactly that many when no [print]
    raises.  An ingestion answered 201 carries as [id] the 0-based position
    at which its entry sits in that list. *)
Theorem get_all_data_order_and_ids (rs : list request) :
  get_all_data (serve rs initial_world).2 =
    (Ok (JObj {[ "data" := JArr (JObj <$> accepted rs);
                 "count" := JInt (Z.of_nat (length (accepted rs))) ]},
         200),
     (serve rs initial_world).2) /\
  (count_created (serve rs initial_world).1 <= length (accepted rs))%nat /\
  ((forall t c, print_logged t c = Ok tt) ->
   count_created (serve rs initial_world).1 = length (accepted rs)) /\
  (forall (i : nat) (r : request) (out : result response),
      rs !! i = Some r ->
      (serve rs initial_world).1 !! i = Some out ->
      created out = true ->
      exists got d,
        r = PostLogData got /\ ingest got = Ok d /\
        out = Ok (JObj {[ "message" := JStr "Data logged successfully";
                          "id" := JInt (Z.of_nat (length (accepted (take i rs)))) ]},
                  201) /\
        accepted rs !! length (accepted (take i rs)) = Some d).
Proof.
  split; [|split; [|split]].
  - rewrite get_all_data_spec, serve_log. done.
  - apply serve_count.
  - apply serve_count.
  - intros i r out Hr Ho Hc.
    destruct (serve_ids rs initial_world i r out Hr Ho Hc) as (got & d & ? & ? & ? & ?).
    by exists got, d.
Qed.

(** ** The claims about the estimator's effects *)

(** C8. [calculate_band_gap] never mutates the list: whatever the outcome
    (a result, the insufficient-data answer, a failed fit, an exception), the
    list after the call is the list before it, entry for entry. *)
Theorem calculate_band_gap_preserves_log (w : world) :
  EXPERIMENTAL_DATA_LOG (calculate_band_gap w).2 = EXPERIMENTAL_DATA_LOG w.
Proof. apply calculate_band_gap_frame. Qed.

Lemma calculate_band_gap_depends_on_log w1 w2 :
  EXPERIMENTAL_DATA_LOG w1 = EXPERIMENTAL_DATA_LOG w2 ->
  (calculate_band_gap w1).1 = (calculate_band_gap w2).1.
Proof.
  intros E. rewrite !calculate_band_gap_spec, E.
  destruct (transform_loop (EXPERIMENTAL_DATA_LOG w2) [] []) as [[X Y]|e]; [|done].
  destruct (length X <? 2)%nat; [done|].
  destruct (np_polyfit1 X Y) as [[slope intercept]|e]; [|done].
  by destruct (np_corrcoef01 X Y).
Qed.

(** C9. The answer of [calculate_band_gap] is a function of the contents of
    the list: two states with the same list get the same answer; a second
    call right after a first one returns what the first returned, be it the
    result or the error; and so does a second call made after any requests
    none of which was an accepted ingestion. *)
Theorem calculate_band_gap_deterministic :
  (forall (log : list (gmap string json)) (calls1 calls2 : list np_call),
      (calculate_band_gap (World log calls1)).1 =
      (calculate_band_gap (World log calls2)).1) /\
  (forall w : world,
      (calculate_band_gap (calculate_band_gap w).2).1 = (calculate_band_gap w).1) /\
  (forall (w : world) (rs : list request),
      accepted rs = [] ->
      (calculate_band_gap (serve rs (calculate_band_gap w).2).2).1 =
      (calculate_band_gap w).1).
Proof.
  split; [|split].
  - intros log c1 c2. by apply calculate_band_gap_depends_on_log.
  - intros w. apply calculate_band_gap_depends_on_log, calculate_band_gap_frame.
  - intros w rs Hrs. apply calculate_band_gap_depends_on_log.
    rewrite serve_log, Hrs, app_nil_r. apply calculate_band_gap_frame.
Qed.

(** ** The claims about the working set and the fit *)

Lemma transform_loop_defined log :
  log_ok log ->
  (forall d, d ∈ log -> included d = true -> temperature_of d <> (-273.15)%float) ->
  transform_loop log [] [] = Ok (working_set log).
Proof.
  intros Hok Hne. rewrite (transform_loop_spec _ Hok).
  rewrite transform_all_defined.
  - cbn [rbind app]. unfold working_set. by rewrite !map_map.
  - apply List.Forall_forall. intros d Hd.
    apply List.filter_In in Hd as [Hd Hi].
    split; [done|]. apply Hne; [|done]. by apply list_elem_of_In.
Qed.

Lemma transform_loop_absolute_zero log d :
  log_ok log ->
  d ∈ log ->
  included d = true ->
  temperature_of d = (-273.15)%float ->
  transform_loop log [] [] = Raise zero_division.
Proof.
  intros Hok Hd Hi Ht. rewrite (transform_loop_spec _ Hok).
  rewrite (transform_all_absolute_zero _ d); [done| | |done].
  - apply filter_included_Forall.
  - apply list_elem_of_In, List.filter_In. split; [|done].
    by apply list_elem_of_In.
Qed.

(** X17. For every list in which no entry with current > 1e-9 has
    temperature -273.15: the loop completes; an entry is in the working set
    if and only if its current is strictly greater than 1e-9; an entry in
    the working set contributes exactly the point
    (1/(temperature + 273.15), ln(current)), in the order of the list; an
    entry with current <= 1e-9 is left out without an error; and the entries
    that are left out are still in the answer of [get_all_data], which
    returns the whole list. *)
Theorem working_set_is_filtered_transform (w : world) :
  log_ok (EXPERIMENTAL_DATA_LOG w) ->
  (forall d, d ∈ EXPERIMENTAL_DATA_LOG w -> included d = true ->
             temperature_of d <> (-273.15)%float) ->
  transform_loop (EXPERIMENTAL_DATA_LOG w) [] [] =
    Ok (map (fun d => (1 / (temperature_of d + 273.15))%float)
            (List.filter included (EXPERIMENTAL_DATA_LOG w)),
        map (fun d => libm_log (current_of d))
            (List.filter included (EXPERIMENTAL_DATA_LOG w))) /\
  (forall d, d ∈ List.filter included (EXPERIMENTAL_DATA_LOG w) <->
             d ∈ EXPERIMENTAL_DATA_LOG w /\ (1e-9 <? current_of d)%float = true) /\
  (forall d, (current_of d <=? 1e-9)%float = true ->
             d ∉ List.filter included (EXPERIMENTAL_DATA_LOG w)) /\
  (get_all_data w).1 =
    Ok (JObj {[ "data" := JArr (JObj <$> EXPERIMENTAL_DATA_LOG w);
                "count" := JInt (Z.of_nat (length (EXPERIMENTAL_DATA_LOG w))) ]}, 200).
Proof.
  intros Hok Hne. split; [|split; [|split]].
  - by rewrite (transform_loop_defined _ Hok Hne).
  - intros d. rewrite !list_elem_of_In. apply List.filter_In.
  - intros d Hle Hd. apply list_elem_of_In, List.filter_In in Hd as [_ Hd].
    unfold included in Hd. by rewrite (leb_not_ltb _ _ Hle) in Hd.
  - by rewrite get_all_data_spec.
Qed.

(** C2. When the working set has at least 2 points and the fit succeeds, the
    answer has status 200, its [band_gap_eV] is [-2 * 8.617e-5 * slope] for
    the slope that [np.polyfit] returned on the working set, and its
    [slope_value] is that same slope. *)
Theorem band_gap_from_slope (w : world) (X Y : list float) (slope intercept r : float) :
  transform_loop (EXPERIMENTAL_DATA_LOG w) [] [] = Ok (X, Y) ->
  (2 <= length X)%nat ->
  np_polyfit1 X Y = Ok (slope, intercept) ->
  np_corrcoef01 X Y = Ok r ->
  exists body : gmap string json,
    (calculate_band_gap w).1 = Ok (JObj body, 200) /\
    body !! "band_gap_eV" = Some (JFloat (-2 * 8.617e-5 * slope)%float) /\
    body !! "slope_value" = Some (JFloat slope).
Proof.
  intros Hl Hn Hp Hc. rewrite calculate_band_gap_spec, Hl.
  apply Nat.ltb_ge in Hn. rewrite Hn, Hp, Hc.
  eexists. split; [reflexivity|]. by split.
Qed.

(** C6. When the computation succeeds, [r_squared] is the second power of
    the [0,1] entry of [np.corrcoef] taken on the x array and the y array of
    the working set; the only calls into NumPy are the fit and that
    correlation, both on these two arrays. *)
Theorem r_squared_is_squared_correlation
    (w : world) (X Y : list float) (slope intercept r : float) :
  transform_loop (EXPERIMENTAL_DATA_LOG w) [] [] = Ok (X, Y) ->
  (2 <= length X)%nat ->
  np_polyfit1 X Y = Ok (slope, intercept) ->
  np_corrcoef01 X Y = Ok r ->
  exists body : gmap string json,
    (calculate_band_gap w).1 = Ok (JObj body, 200) /\
    body !! "r_squared" = Some (JFloat (float64_pow r 2)) /\
    numpy_calls (calculate_band_gap w).2 =
      numpy_calls w ++ [CallPolyfit X Y; CallCorrcoef X Y].
Proof.
  intros Hl Hn Hp Hc. rewrite calculate_band_gap_spec, Hl.
  apply Nat.ltb_ge in Hn. rewrite Hn, Hp, Hc.
  eexists. split; [reflexivity|]. by split.
Qed.

(** What C3 asks for does hold off the division by zero: when no entry with
    current > 1e-9 has temperature -273.15, fewer than two entries with
    current > 1e-9 give the 400 answer with no call into NumPy; and two or
    more never give it, on any list. *)
Lemma insufficient_data_when_defined (w : world) :
  log_ok (EXPERIMENTAL_DATA_LOG w) ->
  ((forall d, d ∈ EXPERIMENTAL_DATA_LOG w -> included d = true ->
              temperature_of d <> (-273.15)%float) ->
   (length (List.filter included (EXPERIMENTAL_DATA_LOG w)) < 2)%nat ->
   calculate_band_gap w = (Ok (error_body not_enough_msg, 400), w)) /\
  ((2 <= length (List.filter included (EXPERIMENTAL_DATA_LOG w)))%nat ->
   forall body, (calculate_band_gap w).1 <> Ok (body, 400)).
Proof.
  intros Hok. split.
  - intros Hne Hn. rewrite calculate_band_gap_spec.
    rewrite (transform_loop_defined _ Hok Hne). unfold working_set.
    rewrite length_map. apply Nat.ltb_lt in Hn. by rewrite Hn.
  - intros Hn body. rewrite calculate_band_gap_spec.
    rewrite (transform_loop_spec _ Hok).
    destruct (transform_all (List.filter included (EXPERIMENTAL_DATA_LOG w)))
      as [ps|e] eqn:E; [|done].
    cbn [rbind app]. rewrite length_map, (transform_all_length _ _ E).
    apply Nat.ltb_ge in Hn. rewrite Hn.
    destruct (np_polyfit1 (map fst ps) (map snd ps)) as [[slope intercept]|e]; [|done].
    by destruct (np_corrcoef01 (map fst ps) (map snd ps)).
Qed.

(** C10. The division [1 / T_kelvin] is unguarded.  For every list holding
    an entry with temperature -273.15 and current > 1e-9,
    [calculate_band_gap] raises [ZeroDivisionError]: no response is returned,
    neither the 400 one nor the 500 one, and no call into NumPy has been made.
    For every entry with current > 1e-9 and a temperature other than -273.15
    the transform is defined: the division and [math.log] both return, the
    loop appends the point of the entry to its two lists and goes on with
    the rest of the list; an entry that fails the test is passed over.  So on
    a list in which no entry with current > 1e-9 has temperature -273.15 the
    loop completes with the whole working set and [calculate_band_gap]
    returns a response. *)
Theorem unguarded_division :
  (forall (w : world) (d : gmap string json),
      log_ok (EXPERIMENTAL_DATA_LOG w) ->
      d ∈ EXPERIMENTAL_DATA_LOG w ->
      temperature_of d = (-273.15)%float ->
      included d = true ->
      calculate_band_gap w = (Raise zero_division, w)) /\
  (forall d : gmap string json,
      included d = true ->
      temperature_of d <> (-273.15)%float ->
      py_truediv 1 (temperature_of d + 273.15) =
        Ok (1 / (temperature_of d + 273.15))%float /\
      math_log (current_of d) = Ok (libm_log (current_of d)) /\
      transform d = Ok (point d)) /\
  (forall (d : gmap string json) (rest : list (gmap string json)) (X Y : list float),
      entry_ok d ->
      included d = true ->
      temperature_of d <> (-273.15)%float ->
      transform_loop (d :: rest) X Y =
        transform_loop rest (X ++ [(1 / (temperature_of d + 273.15))%float])
                            (Y ++ [libm_log (current_of d)])) /\
  (forall (d : gmap string json) (rest : list (gmap string json)) (X Y : list float),
      entry_ok d ->
      included d = false ->
      transform_loop (d :: rest) X Y = transform_loop rest X Y) /\
  (forall w : world,
      log_ok (EXPERIMENTAL_DATA_LOG w) ->
      (forall d, d ∈ EXPERIMENTAL_DATA_LOG w -> included d = true ->
                 temperature_of d <> (-273.15)%float) ->
      transform_loop (EXPERIMENTAL_DATA_LOG w) [] [] =
        Ok (working_set (EXPERIMENTAL_DATA_LOG w)) /\
      exists resp, (calculate_band_gap w).1 = Ok resp).
Proof.
  assert (Hdiv : forall d, temperature_of d <> (-273.15)%float ->
            py_truediv 1 (temperature_of d + 273.15) =
            Ok (1 / (temperature_of d + 273.15))%float).
  { intros d Ht. unfold py_truediv.
    destruct (temperature_of d + 273.15 =? 0)%float eqn:E; [|done].
    by apply add_273_15_zero in E. }
  assert (Hlog : forall d, included d = true ->
            math_log (current_of d) = Ok (libm_log (current_of d))).
  { intros d Hi. unfold math_log. by rewrite (included_log_defined _ Hi). }
  split; [|split; [|split; [|split]]].
  - intros w d Hok Hd Ht Hi. rewrite calculate_band_gap_spec.
    by rewrite (transform_loop_absolute_zero _ d Hok Hd Hi Ht).
  - intros d Hi Ht. split; [by apply Hdiv|]. split; [by apply Hlog|].
    by apply transform_defined.
  - intros d rest X Y (Ht & Hc & _) Hi Hne. cbn [transform_loop].
    rewrite (float_item_field _ _ Ht), (float_item_field _ _ Hc).
    cbn [rbind]. fold (temperature_of d) (current_of d).
    change (1e-9 <? current_of d)%float with (included d).
    by rewrite Hi, (Hdiv _ Hne), (Hlog _ Hi).
  - intros d rest X Y (Ht & Hc & _) Hi. cbn [transform_loop].
    rewrite (float_item_field _ _ Ht), (float_item_field _ _ Hc).
    cbn [rbind]. fold (current_of d).
    change (1e-9 <? current_of d)%float with (included d).
    by rewrite Hi.
  - intros w Hok Hne. split; [by apply transform_loop_defined|].
    rewrite calculate_band_gap_spec, (transform_loop_defined _ Hok Hne).
    unfold working_set.
    match goal with |- context [(length ?a <? 2)%nat] =>
      destruct (length a <? 2)%nat; [by eexists|] end.
    match goal with |- context [np_polyfit1 ?a ?b] =>
      destruct (np_polyfit1 a b) as [[slope intercept]|e];
      [destruct (np_corrcoef01 a b) as [r|e]|] end; by eexists.
Qed.

(** C3 (the code on a list it can hold). The list with the single entry
    (temperature -273.15, current 1.0) is what one accepted POST leaves
    behind.  It has one entry with current > 1e-9, fewer than two, and
    [calculate_band_gap] does not answer 400 on it: the division raises
    [ZeroDivisionError] before the length test is reached. *)
Theorem insufficient_data_absolute_zero :
  (serve [PostLogData (Ok (JObj Sample.absolute_zero))] initial_world).2 =
    World Sample.absolute_zero_log [] /\
  length (List.filter included Sample.absolute_zero_log) = 1%nat /\
  calculate_band_gap (World Sample.absolute_zero_log []) =
    (Raise zero_division, World Sample.absolute_zero_log []) /\
  ~ insufficient_data_claim (World Sample.absolute_zero_log []).
Proof.
  assert (Hc : calculate_band_gap (World Sample.absolute_zero_log []) =
               (Raise zero_division, World Sample.absolute_zero_log [])).
  { rewrite calculate_band_gap_spec. by vm_compute. }
  split.
  { rewrite serve_cons. cbn [snd serve handle]. rewrite log_data_spec.
    assert (Hi : ingest (Ok (JObj Sample.absolute_zero)) = Ok Sample.absolute_zero)
      by (by vm_compute).
    rewrite Hi.
    by destruct (print_logged (temperature_of Sample.absolute_zero)
                   (current_of Sample.absolute_zero)). }
  split; [by vm_compute|]. split; [done|].
  unfold insufficient_data_claim. rewrite Hc. intros H.
  specialize (H ltac:(vm_compute; lia)). discriminate H.
Qed.

(** ** Further properties of ingestion *)

Lemma not_in_fields k :
  k ∉ fields -> k <> "temperature" /\ k <> "current" /\ k <> "voltage".
Proof.
  unfold fields. intros H. repeat split; intros ->; apply H; repeat constructor.
Qed.

Lemma in_fields k :
  k ∈ fields -> k = "temperature" \/ k = "current" \/ k = "voltage".
Proof.
  unfold fields. intros H.
  apply elem_of_cons in H as [->|H]; [by left|].
  apply elem_of_cons in H as [->|H]; [by right; left|].
  apply elem_of_cons in H as [->|H]; [by right; right|].
  by apply not_elem_of_nil in H.
Qed.

Lemma normalize_lookup data d :
  normalize data = Ok d ->
  (forall k, k ∉ fields -> d !! k = data !! k) /\
  (forall k, k ∈ fields ->
     exists f, py_float (dict_get data k) = Ok f /\ d !! k = Some (JFloat f)).
Proof.
  unfold normalize, rbind. intros H.
  destruct (py_float (dict_get data "temperature")) as [t|] eqn:Et; [|done].
  destruct (py_float (dict_get data "current")) as [c|] eqn:Ec; [|done].
  destruct (py_float (dict_get data "voltage")) as [v|] eqn:Ev; [|done].
  injection H as <-. split.
  - intros k Hk. apply not_in_fields in Hk as (H1 & H2 & H3).
    by rewrite !lookup_insert_ne.
  - intros k Hk. apply in_fields in Hk as [-> | [-> | ->]].
    + exists t. split; [done|].
      rewrite (lookup_insert_ne _ "voltage" "temperature") by done.
      rewrite (lookup_insert_ne _ "current" "temperature") by done.
      by rewrite lookup_insert_eq.
    + exists c. split; [done|].
      rewrite (lookup_insert_ne _ "voltage" "current") by done.
      by rewrite lookup_insert_eq.
    + exists v. split; [done|]. by rewrite lookup_insert_eq.
Qed.

Lemma log_data_created_inv data w body :
  (log_data (Ok (JObj data)) w).1 = Ok (body, 201) ->
  exists d,
    normalize data = Ok d /\
    (exists u, print_logged (temperature_of d) (current_of d) = Ok u) /\
    (log_data (Ok (JObj data)) w).2 =
      {| EXPERIMENTAL_DATA_LOG := EXPERIMENTAL_DATA_LOG w ++ [d];
         numpy_calls := numpy_calls w |} /\
    body = JObj {[ "message" := JStr "Data logged successfully";
                   "id" := JInt (Z.of_nat (length (EXPERIMENTAL_DATA_LOG w))) ]}.
Proof.
  rewrite log_data_spec. unfold ingest. cbn [rbind as_dict].
  destruct (normalize data) as [d|e]; simpl; [|done].
  destruct (print_logged (temperature_of d) (current_of d)) as [u|e] eqn:Ep;
    simpl; [|done].
  intros [= <-]. exists d. repeat split; eauto.
Qed.

(** X1. [log_data] never lets an exception out: whatever the request, it
    returns a response, with status 201 or 500.  With 201 the list is the
    old list followed by one new entry.  With 500 either a conversion failed
    and the state is the one before the call, or the three conversions went
    through, the [print] raised, and the entry is in the list all the same.
    Nothing but the list changes. *)
Theorem log_data_answers (got : result json) (w : world) :
  exists body st,
    (log_data got w).1 = Ok (body, st) /\
    (st = 201 \/ st = 500) /\
    numpy_calls (log_data got w).2 = numpy_calls w /\
    (st = 201 ->
     exists d,
       ingest got = Ok d /\
       EXPERIMENTAL_DATA_LOG (log_data got w).2 = EXPERIMENTAL_DATA_LOG w ++ [d]) /\
    (st = 500 ->
     (exists e, ingest got = Raise e /\ (log_data got w).2 = w) \/
     (exists d e,
        ingest got = Ok d /\
        print_logged (temperature_of d) (current_of d) = Raise e /\
        EXPERIMENTAL_DATA_LOG (log_data got w).2 = EXPERIMENTAL_DATA_LOG w ++ [d])).
Proof.
  rewrite log_data_spec. destruct (ingest got) as [d|e]; simpl.
  - destruct (print_logged (temperature_of d) (current_of d)) as [u|e] eqn:Ep; simpl.
    + eexists _, 201. split; [done|]. split; [by left|]. split; [done|].
      split; [|done]. intros _. by exists d.
    + eexists _, 500. split; [done|]. split; [by right|]. split; [done|].
      split; [done|]. intros _. right. by exists d, e.
  - eexists _, 500. split; [done|]. split; [by right|]. split; [done|].
    split; [done|]. intros _. left. by exists e.
Qed.

(** X2. A body that decodes to something other than a JSON object (null, a
    boolean, a number, a string, an array) is answered 500 with the message
    of the [AttributeError] that [data.get] raises, and a request whose
    [get_json] raises is answered 500 with the message of that exception; in
    both cases nothing is stored. *)
Theorem log_data_rejects_non_object :
  (forall (body : json) (w : world),
      (forall d, body <> JObj d) ->
      log_data (Ok body) w =
        (Ok (error_body ("Failed to log data: " +:+
                         ("'" +:+ type_name body +:+ "' object has no attribute 'get'")),
             500), w)) /\
  (forall (e : exception) (w : world),
      log_data (Raise e) w =
        (Ok (error_body ("Failed to log data: " +:+ exc_str e), 500), w)).
Proof.
  split.
  - intros body w Hb. rewrite log_data_spec. unfold ingest. cbn [rbind].
    destruct body; try done. by destruct (Hb m).
  - intros e w. by rewrite log_data_spec.
Qed.

(** X3. An accepted payload is stored whole: the new entry has, under each
    of the three keys, the float that [float()] gave for the payload's value,
    and under every other key exactly what the payload had there (present or
    absent).  No key is dropped, renamed or added. *)
Theorem log_data_stores_payload (data : gmap string json) (w : world) (body : json) :
  (log_data (Ok (JObj data)) w).1 = Ok (body, 201) ->
  exists d,
    EXPERIMENTAL_DATA_LOG (log_data (Ok (JObj data)) w).2 =
      EXPERIMENTAL_DATA_LOG w ++ [d] /\
    (forall k, k ∉ fields -> d !! k = data !! k) /\
    (forall k, k ∈ fields ->
       exists f, py_float (dict_get data k) = Ok f /\ d !! k = Some (JFloat f)).
Proof.
  intros H. destruct (log_data_created_inv _ _ _ H) as (d & Hn & _ & Hw & _).
  exists d. rewrite Hw. split; [done|]. by apply normalize_lookup.
Qed.


(** X5. The conversions run in the order temperature, current, voltage and
    the first one that fails decides the answer: its message is reported,
    whatever the later fields hold. *)
Theorem log_data_first_error (data : gmap string json) (w : world) (e : exception) :
  (py_float (dict_get data "temperature") = Raise e \/
   (exists t, py_float (dict_get data "temperature") = Ok t) /\
   (py_float (dict_get data "current") = Raise e \/
    (exists c, py_float (dict_get data "current") = Ok c) /\
    py_float (dict_get data "voltage") = Raise e)) ->
  log_data (Ok (JObj data)) w =
    (Ok (error_body ("Failed to log data: " +:+ exc_str e), 500), w).
Proof.
  intros H. rewrite log_data_spec. unfold ingest, normalize. cbn [rbind as_dict].
  destruct H as [-> | [[t ->] [-> | [[c ->] ->]]]]; done.
Qed.

(** X16. [log_data] checks that the three fields convert, not what they
    convert to: a payload whose three fields are JSON floats is stored as it
    is, whatever the values (NaN, an infinity, a temperature at or below
    -273.15, a negative current).  The answer is 201 with the index of the
    entry when the [print] returns, and 500 with the message of its
    exception when it raises. *)
Theorem log_data_has_no_range_check (data : gmap string json) (w : world) :
  entry_ok data ->
  (log_data (Ok (JObj data)) w).2 =
    {| EXPERIMENTAL_DATA_LOG := EXPERIMENTAL_DATA_LOG w ++ [data];
       numpy_calls := numpy_calls w |} /\
  ((exists u, print_logged (temperature_of data) (current_of data) = Ok u) ->
   (log_data (Ok (JObj data)) w).1 =
     Ok (JObj {[ "message" := JStr "Data logged successfully";
                 "id" := JInt (Z.of_nat (length (EXPERIMENTAL_DATA_LOG w))) ]}, 201)) /\
  (forall e, print_logged (temperature_of data) (current_of data) = Raise e ->
   (log_data (Ok (JObj data)) w).1 =
     Ok (error_body ("Failed to log data: " +:+ exc_str e), 500)).
Proof.
  intros Hok. rewrite log_data_spec. unfold ingest. cbn [rbind as_dict].
  rewrite (normalize_id _ Hok).
  destruct (print_logged (temperature_of data) (current_of data)) as [u|e'];
    (split; [done|]); split; try done.
  - by intros [u [=]].
  - by intros e [= <-].
Qed.

(** X18. The append is not undone when the [print] after it raises: if the
    three fields of the payload convert and the [print] of the two stored
    floats raises [e], [log_data] answers 500 with the message of [e], and
    the converted entry is in the list, where [get_all_data] and the
    estimator will find it. *)
Theorem log_data_print_failure
    (data d : gmap string json) (e : exception) (w : world) :
  normalize data = Ok d ->
  print_logged (temperature_of d) (current_of d) = Raise e ->
  log_data (Ok (JObj data)) w =
    (Ok (error_body ("Failed to log data: " +:+ exc_str e), 500),
     {| EXPERIMENTAL_DATA_LOG := EXPERIMENTAL_DATA_LOG w ++ [d];
        numpy_calls := numpy_calls w |}) /\
  py_float (dict_get data "temperature") = Ok (temperature_of d) /\
  py_float (dict_get data "current") = Ok (current_of d).
Proof.
  intros Hn Hp. split; [|by apply normalize_fields].
  rewrite log_data_spec. unfold ingest. cbn [rbind as_dict]. by rewrite Hn, Hp.
Qed.

(** ** Further properties of runs *)

Lemma serve_log_ok rs w :
  log_ok (EXPERIMENTAL_DATA_LOG w) ->
  log_ok (EXPERIMENTAL_DATA_LOG (serve rs w).2).
Proof.
  intros Hok. rewrite serve_log. apply Forall_app. split; [done|apply accepted_ok].
Qed.

(** X6. The list is append-only.  Whatever requests are served, the list
    before them is a prefix of the list after them: no entry is removed,
    replaced or moved, and the entry at an index stays at that index. *)
Theorem log_is_append_only (rs : list request) (w : world) :
  EXPERIMENTAL_DATA_LOG w `prefix_of` EXPERIMENTAL_DATA_LOG (serve rs w).2 /\
  (forall i d,
      EXPERIMENTAL_DATA_LOG w !! i = Some d ->
      EXPERIMENTAL_DATA_LOG (serve rs w).2 !! i = Some d).
Proof.
  rewrite serve_log. split.
  - by apply prefix_app_r.
  - intros i d Hi. by apply lookup_app_l_Some.
Qed.

(** X7. One reading at -273.15 with current > 1e-9 disables the estimator
    for good: once it is in the list, [calculate_band_gap] raises
    [ZeroDivisionError] after any further requests, the list having no
    operation that removes or repairs an entry. *)
Theorem absolute_zero_is_permanent
    (w : world) (d : gmap string json) (rs : list request) :
  log_ok (EXPERIMENTAL_DATA_LOG w) ->
  d ∈ EXPERIMENTAL_DATA_LOG w ->
  temperature_of d = (-273.15)%float ->
  included d = true ->
  calculate_band_gap (serve rs w).2 = (Raise zero_division, (serve rs w).2).
Proof.
  intros Hok Hd Ht Hi. rewrite calculate_band_gap_spec.
  rewrite (transform_loop_absolute_zero _ d); try done.
  - by apply serve_log_ok.
  - rewrite serve_log. apply elem_of_app. by left.
Qed.

(** X14. The [id] of an accepted reading is the [count] that [get_all_data]
    reported just before the POST, the [count] just after it is [id + 1], and
    [data] is then the old list followed by the entry made from the
    request's payload. *)
Theorem log_data_id_and_count (got : result json) (w : world) (body : gmap string json) :
  (log_data got w).1 = Ok (JObj body, 201) ->
  exists (n : Z) (before after : gmap string json) (d : gmap string json),
    ingest got = Ok d /\
    body !! "id" = Some (JInt n) /\
    (get_all_data w).1 = Ok (JObj before, 200) /\
    before !! "count" = Some (JInt n) /\
    before !! "data" = Some (JArr (JObj <$> EXPERIMENTAL_DATA_LOG w)) /\
    (get_all_data (log_data got w).2).1 = Ok (JObj after, 200) /\
    after !! "count" = Some (JInt (n + 1)) /\
    after !! "data" = Some (JArr (JObj <$> (EXPERIMENTAL_DATA_LOG w ++ [d]))).
Proof.
  rewrite log_data_spec. destruct (ingest got) as [d|e]; simpl; [|done].
  destruct (print_logged (temperature_of d) (current_of d)); simpl; [|done].
  intros [= <-].
  exists (Z.of_nat (length (EXPERIMENTAL_DATA_LOG w))). eexists _, _, d.
  split; [done|]. split; [done|]. split; [reflexivity|]. split; [done|].
  split; [done|]. split; [reflexivity|]. split; [|done].
  rewrite length_app. simpl.
  replace (Z.of_nat (length (EXPERIMENTAL_DATA_LOG w) + 1))
    with (Z.of_nat (length (EXPERIMENTAL_DATA_LOG w)) + 1) by lia.
  done.
Qed.

(** ** Further properties of the estimator *)

Lemma transform_raise_inv d e :
  included d = true ->
  transform d = Raise e ->
  e = zero_division /\ temperature_of d = (-273.15)%float.
Proof.
  intros Hi. unfold transform, py_truediv, math_log.
  destruct (temperature_of d + 273.15 =? 0)%float eqn:E.
  - cbn [rbind]. intros [= <-]. split; [done|]. by apply add_273_15_zero.
  - cbn [rbind]. by rewrite (included_log_defined _ Hi).
Qed.

Lemma transform_all_raise_inv ds e :
  Forall (fun d => included d = true) ds ->
  transform_all ds = Raise e ->
  e = zero_division /\ exists d, d ∈ ds /\ temperature_of d = (-273.15)%float.
Proof.
  induction 1 as [|d ds Hi _ IH]; [done|].
  cbn [transform_all].
  destruct (transform d) as [p|e'] eqn:Et.
  - cbn [rbind]. destruct (transform_all ds) as [ps|e'']; [done|].
    cbn [rbind]. intros [= <-]. destruct (IH eq_refl) as (-> & d' & Hd' & Ht).
    split; [done|]. exists d'. split; [by apply list_elem_of_further|done].
  - cbn [rbind]. intros [= <-].
    destruct (transform_raise_inv _ _ Hi Et) as [-> Ht].
    split; [done|]. exists d. split; [apply list_elem_of_here|done].
Qed.

(** X8. On a list of well-formed entries the only exception that leaves
    [calculate_band_gap] is the [ZeroDivisionError] of the division, and it
    is raised exactly when some entry with current > 1e-9 has temperature
    -273.15; otherwise a response is returned, with status 200, 400 or 500. *)
Theorem calculate_band_gap_outcomes (w : world) :
  log_ok (EXPERIMENTAL_DATA_LOG w) ->
  ((exists e, (calculate_band_gap w).1 = Raise e) <->
   (exists d, d ∈ EXPERIMENTAL_DATA_LOG w /\ included d = true /\
              temperature_of d = (-273.15)%float)) /\
  (forall e, (calculate_band_gap w).1 = Raise e -> e = zero_division) /\
  (forall body st, (calculate_band_gap w).1 = Ok (body, st) ->
                   st = 200 \/ st = 400 \/ st = 500).
Proof.
  intros Hok.
  assert (Hraise : forall e, (calculate_band_gap w).1 = Raise e ->
            e = zero_division /\
            exists d, d ∈ EXPERIMENTAL_DATA_LOG w /\ included d = true /\
                      temperature_of d = (-273.15)%float).
  { intros e. rewrite calculate_band_gap_spec, (transform_loop_spec _ Hok).
    destruct (transform_all (List.filter included (EXPERIMENTAL_DATA_LOG w)))
      as [ps|e'] eqn:E.
    - cbn [rbind app].
      destruct (length (map fst ps) <? 2)%nat; [done|].
      destruct (np_polyfit1 (map fst ps) (map snd ps)) as [[slope intercept]|e1]; [|done].
      by destruct (np_corrcoef01 (map fst ps) (map snd ps)).
    - cbn [rbind]. simpl. intros [= <-].
      destruct (transform_all_raise_inv _ _ (filter_included_Forall _) E)
        as (-> & d & Hd & Ht).
      split; [done|]. exists d.
      apply list_elem_of_In, List.filter_In in Hd as [Hd Hi].
      split; [by apply list_elem_of_In|done]. }
  split; [split|split].
  - intros [e He]. by destruct (Hraise e He).
  - intros (d & Hd & Hi & Ht). exists zero_division.
    rewrite calculate_band_gap_spec.
    by rewrite (transform_loop_absolute_zero _ d Hok Hd Hi Ht).
  - intros e He. by destruct (Hraise e He).
  - intros body st. rewrite calculate_band_gap_spec.
    destruct (transform_loop (EXPERIMENTAL_DATA_LOG w) [] []) as [[X Y]|e]; [|done].
    destruct (length X <? 2)%nat; [intros [= _ <-]; by right; left|].
    destruct (np_polyfit1 X Y) as [[slope intercept]|e];
      [|intros [= _ <-]; by right; right].
    destruct (np_corrcoef01 X Y); intros [= _ <-]; [by left|by right; right].
Qed.

(** X9. A failure inside the [try] block is answered 500 with the message of
    the exception.  When [np.polyfit] raises, [np.corrcoef] is not called;
    when [np.polyfit] returns and [np.corrcoef] raises, the slope that was
    computed is discarded with the rest. *)
Theorem fit_failure_report (w : world) (X Y : list float) (e : exception) :
  transform_loop (EXPERIMENTAL_DATA_LOG w) [] [] = Ok (X, Y) ->
  (2 <= length X)%nat ->
  (np_polyfit1 X Y = Raise e ->
   calculate_band_gap w =
     (Ok (error_body ("Linear fit failed: " +:+ exc_str e), 500),
      with_calls w [CallPolyfit X Y])) /\
  ((exists si, np_polyfit1 X Y = Ok si) ->
   np_corrcoef01 X Y = Raise e ->
   calculate_band_gap w =
     (Ok (error_body ("Linear fit failed: " +:+ exc_str e), 500),
      with_calls w [CallPolyfit X Y; CallCorrcoef X Y])).
Proof.
  intros Hl Hn. rewrite calculate_band_gap_spec, Hl.
  apply Nat.ltb_ge in Hn. rewrite Hn. split.
  - by intros ->.
  - intros [[slope intercept] ->] ->. done.
Qed.

Lemma filter_included_idem log :
  List.filter included (List.filter included log) = List.filter included log.
Proof.
  induction log as [|d log IH]; [done|].
  cbn [List.filter]. destruct (included d) eqn:E; [|done].
  cbn [List.filter]. by rewrite E, IH.
Qed.

Lemma filter_included_ok log : log_ok log -> log_ok (List.filter included log).
Proof.
  intros Hok. apply List.Forall_forall. intros d Hd.
  apply List.filter_In in Hd as [Hd _].
  by apply (proj1 (List.Forall_forall _ _) Hok).
Qed.

(** X10. Entries that fail the test [current > 1e-9] are inert: the answer
    of [calculate_band_gap] is the answer it gives on the list with those
    entries taken out.  In particular their temperature is never divided by,
    so an entry at -273.15 with a current of at most 1e-9 does no harm. *)
Theorem skipped_entries_are_inert (w : world) (calls : list np_call) :
  log_ok (EXPERIMENTAL_DATA_LOG w) ->
  (calculate_band_gap
     (World (List.filter included (EXPERIMENTAL_DATA_LOG w)) calls)).1 =
  (calculate_band_gap w).1.
Proof.
  intros Hok. rewrite !calculate_band_gap_spec.
  cbn [EXPERIMENTAL_DATA_LOG].
  rewrite (transform_loop_spec _ Hok).
  rewrite (transform_loop_spec _ (filter_included_ok _ Hok)).
  rewrite filter_included_idem.
  destruct (transform_all (List.filter included (EXPERIMENTAL_DATA_LOG w)))
    as [ps|e]; [|done].
  cbn [rbind app].
  destruct (length (map fst ps) <? 2)%nat; [done|].
  destruct (np_polyfit1 (map fst ps) (map snd ps)) as [[slope intercept]|e]; [|done].
  by destruct (np_corrcoef01 (map fst ps) (map snd ps)).
Qed.

(** The loop only appends to its two lists, one element to each at a time. *)
Lemma transform_loop_extends log : forall X Y X' Y',
  transform_loop log X Y = Ok (X', Y') ->
  exists xs ys,
    X' = X ++ xs /\ Y' = Y ++ ys /\
    length xs = length ys /\ (length xs <= length log)%nat.
Proof.
  induction log as [|d log IH]; intros X Y X' Y'.
  - cbn [transform_loop]. intros [= <- <-]. exists [], [].
    by rewrite !app_nil_r.
  - cbn [transform_loop].
    destruct (float_item d "temperature") as [t|]; [|done]. cbn [rbind].
    destruct (float_item d "current") as [c|]; [|done]. cbn [rbind].
    destruct (1e-9 <? c)%float.
    + destruct (py_truediv 1 (t + 273.15)) as [x|]; [|done]. cbn [rbind].
      destruct (math_log c) as [y|]; [|done]. cbn [rbind].
      intros H. destruct (IH _ _ _ _ H) as (xs & ys & -> & -> & Hl & Hn).
      exists (x :: xs), (y :: ys). rewrite <- !app_assoc.
      repeat split; simpl; lia.
    + intros H. destruct (IH _ _ _ _ H) as (xs & ys & -> & -> & Hl & Hn).
      exists xs, ys. repeat split; simpl; lia.
Qed.

Lemma transform_loop_app l1 : forall l2 X Y X1 Y1,
  transform_loop l1 X Y = Ok (X1, Y1) ->
  transform_loop (l1 ++ l2) X Y = transform_loop l2 X1 Y1.
Proof.
  induction l1 as [|d l1 IH]; intros l2 X Y X1 Y1.
  - cbn [transform_loop app]. by intros [= <- <-].
  - cbn [transform_loop app].
    destruct (float_item d "temperature") as [t|]; [|done]. cbn [rbind].
    destruct (float_item d "current") as [c|]; [|done]. cbn [rbind].
    destruct (1e-9 <? c)%float.
    + destruct (py_truediv 1 (t + 273.15)) as [x|]; [|done]. cbn [rbind].
      destruct (math_log c) as [y|]; [|done]. cbn [rbind]. apply IH.
    + apply IH.
Qed.

(** X11. In every 200 answer, [regression_points] holds two arrays of the
    same length, one point per entry with current > 1e-9 and at least two of
    them: [inv_T] and [ln_I] are aligned index by index. *)
Theorem regression_points_aligned (w : world) (body : gmap string json) :
  log_ok (EXPERIMENTAL_DATA_LOG w) ->
  (calculate_band_gap w).1 = Ok (JObj body, 200) ->
  exists X Y : list float,
    body !! "regression_points" =
      Some (JObj {[ "inv_T" := JArr (JFloat <$> X);
                    "ln_I" := JArr (JFloat <$> Y) ]}) /\
    length X = length Y /\
    length X = length (List.filter included (EXPERIMENTAL_DATA_LOG w)) /\
    (2 <= length X)%nat.
Proof.
  intros Hok. rewrite calculate_band_gap_spec, (transform_loop_spec _ Hok).
  destruct (transform_all (List.filter included (EXPERIMENTAL_DATA_LOG w)))
    as [ps|e] eqn:E; [|done].
  cbn [rbind app].
  destruct (length (map fst ps) <? 2)%nat eqn:El; [done|].
  destruct (np_polyfit1 (map fst ps) (map snd ps)) as [[slope intercept]|e]; [|done].
  destruct (np_corrcoef01 (map fst ps) (map snd ps)); [|done].
  simpl. intros [= <-]. exists (map fst ps), (map snd ps).
  split; [done|]. rewrite !length_map.
  split; [done|]. split; [by apply transform_all_length|].
  apply Nat.ltb_ge in El. by rewrite length_map in El.
Qed.

(** X12. Serving more requests only appends to the working set: when the
    loop completes on the list before and on the list after, the two arrays
    computed before are prefixes of the two computed after, so the points
    already plotted keep their values and their indices. *)
Theorem working_set_grows_by_appending
    (w : world) (rs : list request) (X Y X' Y' : list float) :
  transform_loop (EXPERIMENTAL_DATA_LOG w) [] [] = Ok (X, Y) ->
  transform_loop (EXPERIMENTAL_DATA_LOG (serve rs w).2) [] [] = Ok (X', Y') ->
  X `prefix_of` X' /\ Y `prefix_of` Y'.
Proof.
  intros H1 H2. rewrite serve_log in H2.
  rewrite (transform_loop_app _ _ _ _ _ _ H1) in H2.
  destruct (transform_loop_extends _ _ _ _ _ H2) as (xs & ys & -> & -> & _).
  split; by apply prefix_app_r.
Qed.

Lemma transform_all_same_fields ds1 : forall ds2,
  map temperature_of ds1 = map temperature_of ds2 ->
  map current_of ds1 = map current_of ds2 ->
  transform_all (List.filter included ds1) = transform_all (List.filter included ds2).
Proof.
  induction ds1 as [|d1 ds1 IH]; intros [|d2 ds2]; try done.
  cbn [map]. intros [= Ht Hts] [= Hc Hcs].
  assert (Hi : included d1 = included d2) by (unfold included; by rewrite Hc).
  cbn [List.filter]. rewrite Hi.
  destruct (included d2); [|by apply IH].
  cbn [transform_all]. unfold transform. by rewrite Ht, Hc, (IH ds2).
Qed.

(** X13. The estimator reads the temperature and the current of an entry
    and nothing else: two lists of well-formed entries that agree on these
    two fields, position by position, get the same answer, whatever their
    voltages and other keys are. *)
Theorem estimator_reads_two_fields
    (log1 log2 : list (gmap string json)) (calls1 calls2 : list np_call) :
  log_ok log1 -> log_ok log2 ->
  map temperature_of log1 = map temperature_of log2 ->
  map current_of log1 = map current_of log2 ->
  (calculate_band_gap (World log1 calls1)).1 =
  (calculate_band_gap (World log2 calls2)).1.
Proof.
  intros Hok1 Hok2 Ht Hc. rewrite !calculate_band_gap_spec.
  cbn [EXPERIMENTAL_DATA_LOG].
  rewrite (transform_loop_spec _ Hok1), (transform_loop_spec _ Hok2).
  rewrite (transform_all_same_fields _ _ Ht Hc).
  destruct (transform_all (List.filter included log2)) as [ps|e]; [|done].
  cbn [rbind app].
  destruct (length (map fst ps) <? 2)%nat; [done|].
  destruct (np_polyfit1 (map fst ps) (map snd ps)) as [[slope intercept]|e]; [|done].
  by destruct (np_corrcoef01 (map fst ps) (map snd ps)).
Qed.

(** X15. On a list of well-formed entries none of which has both
    current > 1e-9 and temperature -273.15, [calculate_band_gap] gives the
    insufficient-data answer exactly when fewer than two entries have
    current > 1e-9, and in that case it makes no call into NumPy and leaves
    the state untouched. *)
Theorem insufficient_data_iff (w : world) :
  log_ok (EXPERIMENTAL_DATA_LOG w) ->
  (forall d, d ∈ EXPERIMENTAL_DATA_LOG w -> included d = true ->
             temperature_of d <> (-273.15)%float) ->
  ((calculate_band_gap w).1 = Ok (error_body not_enough_msg, 400) <->
   (length (List.filter included (EXPERIMENTAL_DATA_LOG w)) < 2)%nat) /\
  ((length (List.filter included (EXPERIMENTAL_DATA_LOG w)) < 2)%nat ->
   (calculate_band_gap w).2 = w).
Proof.
  intros Hok Hne. rewrite calculate_band_gap_spec.
  rewrite (transform_loop_defined _ Hok Hne). unfold working_set.
  rewrite length_map.
  destruct (length (List.filter included (EXPERIMENTAL_DATA_LOG w)) <? 2)%nat eqn:E.
  - apply Nat.ltb_lt in E. by repeat split.
  - apply Nat.ltb_ge in E. split; [|lia]. split; [|lia].
    match goal with |- context [np_polyfit1 ?a ?b] =>
      destruct (np_polyfit1 a b) as [[slope intercept]|e];
      [destruct (np_corrcoef01 a b) as [r|e]|] end; done.
Qed.

End Backend.

(** ** The claims on concrete inputs *)

Lemma float_neq (a b : float) : Prim2SF a <> Prim2SF b -> a <> b.
Proof. intros H ->. by apply H. Qed.

(** C1 (the code on a list it can hold).  The reading at absolute zero
    passes the test [current > 1e-9], so C1 puts it in the working set with
    its transformed point; the loop raises at the division instead and ends
    with no working set, whatever the logarithm is. *)
Lemma working_set_claim_counterexample :
  log_ok Sample.absolute_zero_log /\
  included Sample.absolute_zero = true /\
  (forall libm_log : float -> float,
      transform_loop libm_log Sample.absolute_zero_log [] [] = Raise zero_division) /\
  (forall libm_log : float -> float,
      ~ working_set_claim libm_log Sample.absolute_zero_log).
Proof.
  split; [|split; [|split]].
  - repeat constructor; by eexists.
  - by vm_compute.
  - intros libm_log. by vm_compute.
  - intros libm_log H. unfold working_set_claim in H. vm_compute in H. discriminate H.
Qed.

Lemma four_readings_ok : log_ok Sample.four_readings.
Proof. repeat constructor; by eexists. Defined.

Lemma four_readings_above_zero (d : gmap string json) :
  d ∈ Sample.four_readings -> included d = true ->
  temperature_of d <> (-273.15)%float.
Proof.
  intros Hd _. unfold Sample.four_readings in Hd.
  repeat (apply elem_of_cons in Hd as [->|Hd]);
    [apply float_neq; vm_compute; discriminate ..|].
  by apply not_elem_of_nil in Hd.
Defined.

Lemma working_set_is_filtered_transform_witness :
  transform_loop Sample.log Sample.four_readings [] [] =
    Ok (map (fun d => (1 / (temperature_of d + 273.15))%float)
            (List.filter included Sample.four_readings),
        map (fun d => Sample.log (current_of d))
            (List.filter included Sample.four_readings)) /\
  length (List.filter included Sample.four_readings) = 3%nat.
Proof.
  split; [|by vm_compute].
  apply (working_set_is_filtered_transform Sample.log
           (World Sample.four_readings [])
           four_readings_ok four_readings_above_zero).
Defined.

Lemma band_gap_from_slope_witness :
  exists (slope : float) (body : gmap string json),
    (calculate_band_gap Sample.log Sample.polyfit Sample.corrcoef Sample.pow
       (World Sample.four_readings [])).1 = Ok (JObj body, 200) /\
    body !! "band_gap_eV" = Some (JFloat (-2 * 8.617e-5 * slope)%float) /\
    body !! "slope_value" = Some (JFloat slope).
Proof.
  eexists.
  eapply (band_gap_from_slope Sample.log Sample.polyfit Sample.corrcoef Sample.pow
            (World Sample.four_readings [])).
  - apply (transform_loop_defined Sample.log Sample.four_readings
             four_readings_ok four_readings_above_zero).
  - vm_compute. lia.
  - reflexivity.
  - reflexivity.
Defined.

Lemma r_squared_is_squared_correlation_witness :
  exists (r : float) (body : gmap string json),
    Sample.corrcoef (working_set Sample.log Sample.four_readings).1
                    (working_set Sample.log Sample.four_readings).2 = Ok r /\
    (calculate_band_gap Sample.log Sample.polyfit Sample.corrcoef Sample.pow
       (World Sample.four_readings [])).1 = Ok (JObj body, 200) /\
    body !! "r_squared" = Some (JFloat (Sample.pow r 2)).
Proof.
  eexists.
  edestruct (r_squared_is_squared_correlation
               Sample.log Sample.polyfit Sample.corrcoef Sample.pow
               (World Sample.four_readings [])) as (body & Hb & Hr & _).
  - apply (transform_loop_defined Sample.log Sample.four_readings
             four_readings_ok four_readings_above_zero).
  - vm_compute. lia.
  - reflexivity.
  - reflexivity.
  - exists body. split; [reflexivity|]. split; [exact Hb|exact Hr].
Defined.

(** A payload without [voltage] refutes C5 as worded: the answer carries the
    message of the conversion error, with status 500, which is not in the
    client-error class. *)
Lemma ingestion_failure_status_counterexample :
  Sample.missing_voltage !! "voltage" = None /\
  (log_data Sample.float_of_str Sample.print_ok (Ok (JObj Sample.missing_voltage)) initial_world).1 =
    Ok (error_body
          "Failed to log data: float() argument must be a string or a real number, not 'NoneType'",
        500) /\
  ~ client_error 500.
Proof.
  split; [by vm_compute|]. split; [by vm_compute|].
  unfold client_error. lia.
Qed.

Lemma voltage_is_a_field : "voltage" ∈ fields.
Proof. repeat constructor. Defined.

Lemma ingestion_failure_report_witness :
  exists k' e',
    k' ∈ fields /\
    py_float Sample.float_of_str (dict_get Sample.missing_voltage k') = Raise e' /\
    normalize Sample.float_of_str Sample.missing_voltage = Raise e' /\
    (log_data Sample.float_of_str Sample.print_ok (Ok (JObj Sample.missing_voltage)) initial_world).1 =
      Ok (error_body ("Failed to log data: " +:+ exc_str e'), 500) /\
    500 <= 500 < 600 /\ ~ client_error 500.
Proof.
  apply (ingestion_failure_report Sample.float_of_str Sample.print_ok Sample.missing_voltage
           "voltage" initial_world voltage_is_a_field).
  left. vm_compute. reflexivity.
Defined.

Lemma ingestion_atomic_witness :
  (exists msg,
      log_data Sample.float_of_str Sample.print_ok (Ok (JObj Sample.missing_voltage))
        (World Sample.four_readings []) =
      (Ok (error_body msg, 500), World Sample.four_readings [])) /\
  log_ok (EXPERIMENTAL_DATA_LOG
            (serve Sample.float_of_str Sample.print_ok Sample.log Sample.polyfit Sample.corrcoef
               Sample.pow
               [PostLogData (Ok (JObj Sample.missing_voltage));
                PostLogData (Ok (JObj Sample.good_payload))]
               initial_world).2).
Proof.
  pose proof (ingestion_atomic Sample.float_of_str Sample.print_ok Sample.log Sample.polyfit
                Sample.corrcoef Sample.pow) as [Hfail Hinv].
  split.
  - apply (Hfail Sample.missing_voltage "voltage" (World Sample.four_readings [])
             voltage_is_a_field).
    left. vm_compute. reflexivity.
  - apply Hinv.
Defined.

Lemma get_all_data_order_and_ids_witness :
  exists got d,
    PostLogData (Ok (JObj Sample.good_payload)) = PostLogData got /\
    ingest Sample.float_of_str got = Ok d /\
    (Ok (JObj {[ "message" := JStr "Data logged successfully"; "id" := JInt 1 ]}, 201)
       : result response) =
      Ok (JObj {[ "message" := JStr "Data logged successfully";
                  "id" := JInt (Z.of_nat (length (accepted Sample.float_of_str
                            (take 3 [PostLogData (Ok (JObj Sample.absolute_zero));
                                     PostLogData (Ok (JObj Sample.missing_voltage));
                                     GetCalculateBandGap;
                                     PostLogData (Ok (JObj Sample.good_payload))])))) ]},
          201) /\
    accepted Sample.float_of_str
      [PostLogData (Ok (JObj Sample.absolute_zero));
       PostLogData (Ok (JObj Sample.missing_voltage));
       GetCalculateBandGap;
       PostLogData (Ok (JObj Sample.good_payload))]
    !! length (accepted Sample.float_of_str
                 (take 3 [PostLogData (Ok (JObj Sample.absolute_zero));
                          PostLogData (Ok (JObj Sample.missing_voltage));
                          GetCalculateBandGap;
                          PostLogData (Ok (JObj Sample.good_payload))])) = Some d.
Proof.
  apply (proj2 (proj2 (proj2
           (get_all_data_order_and_ids Sample.float_of_str Sample.print_ok Sample.log
              Sample.polyfit Sample.corrcoef Sample.pow
              [PostLogData (Ok (JObj Sample.absolute_zero));
               PostLogData (Ok (JObj Sample.missing_voltage));
               GetCalculateBandGap;
               PostLogData (Ok (JObj Sample.good_payload))])))
           3%nat (PostLogData (Ok (JObj Sample.good_payload)))).
  - reflexivity.
  - vm_compute. reflexivity.
  - reflexivity.
Defined.

Lemma absolute_zero_in_log : Sample.absolute_zero ∈ Sample.absolute_zero_log.
Proof. apply list_elem_of_here. Defined.

Lemma absolute_zero_log_ok : log_ok Sample.absolute_zero_log.
Proof. repeat constructor; by eexists. Defined.

Lemma unguarded_division_witness :
  calculate_band_gap Sample.log Sample.polyfit Sample.corrcoef Sample.pow
    (World Sample.absolute_zero_log []) =
    (Raise zero_division, World Sample.absolute_zero_log []) /\
  transform Sample.log (Sample.reading 25 0.001 0.5) =
    Ok (point Sample.log (Sample.reading 25 0.001 0.5)) /\
  transform_loop Sample.log Sample.four_readings [] [] =
    Ok (working_set Sample.log Sample.four_readings) /\
  exists resp,
    (calculate_band_gap Sample.log Sample.polyfit Sample.corrcoef Sample.pow
       (World Sample.four_readings [])).1 = Ok resp.
Proof.
  pose proof (unguarded_division Sample.log Sample.polyfit Sample.corrcoef
                Sample.pow) as (Hraise & Htotal & _ & _ & Hloop).
  split; [|split].
  - apply (Hraise (World Sample.absolute_zero_log []) Sample.absolute_zero
             absolute_zero_log_ok absolute_zero_in_log).
    + vm_compute. reflexivity.
    + vm_compute. reflexivity.
  - apply Htotal.
    + vm_compute. reflexivity.
    + apply float_neq. vm_compute. discriminate.
  - apply (Hloop (World Sample.four_readings [])
             four_readings_ok four_readings_above_zero).
Defined.

Lemma calculate_band_gap_deterministic_witness :
  (calculate_band_gap Sample.log Sample.polyfit Sample.corrcoef Sample.pow
     (serve Sample.float_of_str Sample.print_ok Sample.log Sample.polyfit Sample.corrcoef Sample.pow
        [GetAllData; PostLogData (Ok (JObj Sample.missing_voltage));
         GetCalculateBandGap]
        (calculate_band_gap Sample.log Sample.polyfit Sample.corrcoef Sample.pow
           (World Sample.four_readings [])).2).2).1 =
  (calculate_band_gap Sample.log Sample.polyfit Sample.corrcoef Sample.pow
     (World Sample.four_readings [])).1.
Proof.
  apply (proj2 (proj2 (calculate_band_gap_deterministic Sample.float_of_str Sample.print_ok
                         Sample.log Sample.polyfit Sample.corrcoef Sample.pow))).
  vm_compute. reflexivity.
Defined.

(** ** The further properties on concrete inputs *)

Lemma log_data_rejects_non_object_witness :
  log_data Sample.float_of_str Sample.print_ok (Ok (JArr [JInt 25; JFloat 0.001])) initial_world =
    (Ok (error_body "Failed to log data: 'list' object has no attribute 'get'", 500),
     initial_world).
Proof.
  apply (proj1 (log_data_rejects_non_object Sample.float_of_str Sample.print_ok)
           (JArr [JInt 25; JFloat 0.001]) initial_world).
  intros d. discriminate.
Defined.

Lemma log_data_stores_payload_witness :
  exists d,
    EXPERIMENTAL_DATA_LOG
      (log_data Sample.float_of_str Sample.print_ok (Ok (JObj Sample.good_payload)) initial_world).2 =
      EXPERIMENTAL_DATA_LOG initial_world ++ [d] /\
    (forall k, k ∉ fields -> d !! k = Sample.good_payload !! k) /\
    (forall k, k ∈ fields ->
       exists f, py_float Sample.float_of_str (dict_get Sample.good_payload k) = Ok f /\
                 d !! k = Some (JFloat f)).
Proof.
  eapply (log_data_stores_payload Sample.float_of_str Sample.print_ok Sample.good_payload initial_world).
  reflexivity.
Defined.


Lemma log_data_first_error_witness :
  log_data Sample.float_of_str Sample.print_ok
    (Ok (JObj {[ "temperature" := JStr "abc"; "current" := JFloat 0.001 ]}))
    initial_world =
    (Ok (error_body ("Failed to log data: " +:+
                     exc_str (Exc "ValueError" "could not convert string to float: 'abc'")),
         500),
     initial_world).
Proof.
  apply (log_data_first_error Sample.float_of_str Sample.print_ok
           {[ "temperature" := JStr "abc"; "current" := JFloat 0.001 ]}
           initial_world
           (Exc "ValueError" "could not convert string to float: 'abc'")).
  left. vm_compute. reflexivity.
Defined.

Lemma absolute_zero_is_permanent_witness :
  calculate_band_gap Sample.log Sample.polyfit Sample.corrcoef Sample.pow
    (serve Sample.float_of_str Sample.print_ok Sample.log Sample.polyfit Sample.corrcoef Sample.pow
       [PostLogData (Ok (JObj Sample.good_payload)); GetAllData]
       (World Sample.absolute_zero_log [])).2 =
    (Raise zero_division,
     (serve Sample.float_of_str Sample.print_ok Sample.log Sample.polyfit Sample.corrcoef Sample.pow
        [PostLogData (Ok (JObj Sample.good_payload)); GetAllData]
        (World Sample.absolute_zero_log [])).2).
Proof.
  apply (absolute_zero_is_permanent Sample.float_of_str Sample.print_ok Sample.log Sample.polyfit
           Sample.corrcoef Sample.pow (World Sample.absolute_zero_log [])
           Sample.absolute_zero
           [PostLogData (Ok (JObj Sample.good_payload)); GetAllData]
           absolute_zero_log_ok absolute_zero_in_log).
  - vm_compute. reflexivity.
  - vm_compute. reflexivity.
Defined.

Lemma log_data_id_and_count_witness :
  exists (n : Z) (before after : gmap string json) (d : gmap string json),
    ingest Sample.float_of_str (Ok (JObj Sample.good_payload)) = Ok d /\
    ({[ "message" := JStr "Data logged successfully"; "id" := JInt 4 ]}
       : gmap string json) !! "id" = Some (JInt n) /\
    (get_all_data (World Sample.four_readings [])).1 = Ok (JObj before, 200) /\
    before !! "count" = Some (JInt n) /\
    before !! "data" =
      Some (JArr (JObj <$> EXPERIMENTAL_DATA_LOG (World Sample.four_readings []))) /\
    (get_all_data
       (log_data Sample.float_of_str Sample.print_ok (Ok (JObj Sample.good_payload))
          (World Sample.four_readings [])).2).1 = Ok (JObj after, 200) /\
    after !! "count" = Some (JInt (n + 1)) /\
    after !! "data" =
      Some (JArr (JObj <$> (EXPERIMENTAL_DATA_LOG (World Sample.four_readings []) ++ [d]))).
Proof.
  apply (log_data_id_and_count Sample.float_of_str Sample.print_ok
           (Ok (JObj Sample.good_payload)) (World Sample.four_readings [])).
  vm_compute. reflexivity.
Defined.

Lemma calculate_band_gap_outcomes_witness :
  ((exists e,
      (calculate_band_gap Sample.log Sample.polyfit Sample.corrcoef Sample.pow
         (World Sample.absolute_zero_log [])).1 = Raise e) <->
   (exists d, d ∈ Sample.absolute_zero_log /\ included d = true /\
              temperature_of d = (-273.15)%float)) /\
  (forall e,
      (calculate_band_gap Sample.log Sample.polyfit Sample.corrcoef Sample.pow
         (World Sample.absolute_zero_log [])).1 = Raise e -> e = zero_division) /\
  (forall body st,
      (calculate_band_gap Sample.log Sample.polyfit Sample.corrcoef Sample.pow
         (World Sample.absolute_zero_log [])).1 = Ok (body, st) ->
      st = 200 \/ st = 400 \/ st = 500).
Proof.
  apply (calculate_band_gap_outcomes Sample.log Sample.polyfit Sample.corrcoef
           Sample.pow (World Sample.absolute_zero_log []) absolute_zero_log_ok).
Defined.

Lemma fit_failure_report_witness :
  calculate_band_gap Sample.log
    (fun _ _ => Raise (Exc "LinAlgError" "SVD did not converge in Linear Least Squares"))
    Sample.corrcoef Sample.pow (World Sample.four_readings []) =
    (Ok (error_body "Linear fit failed: SVD did not converge in Linear Least Squares", 500),
     with_calls (World Sample.four_readings [])
       [CallPolyfit (working_set Sample.log Sample.four_readings).1
                    (working_set Sample.log Sample.four_readings).2]).
Proof.
  apply (proj1 (fit_failure_report Sample.log
                  (fun _ _ => Raise (Exc "LinAlgError"
                                       "SVD did not converge in Linear Least Squares"))
                  Sample.corrcoef Sample.pow (World Sample.four_readings [])
                  (working_set Sample.log Sample.four_readings).1
                  (working_set Sample.log Sample.four_readings).2
                  (Exc "LinAlgError" "SVD did not converge in Linear Least Squares")
                  (transform_loop_defined Sample.log Sample.four_readings
                     four_readings_ok four_readings_above_zero)
                  ltac:(vm_compute; lia))).
  reflexivity.
Defined.

Lemma skipped_entries_are_inert_witness :
  (calculate_band_gap Sample.log Sample.polyfit Sample.corrcoef Sample.pow
     (World (List.filter included Sample.four_readings) [])).1 =
  (calculate_band_gap Sample.log Sample.polyfit Sample.corrcoef Sample.pow
     (World Sample.four_readings [])).1 /\
  length (List.filter included Sample.four_readings) = 3%nat.
Proof.
  split; [|by vm_compute].
  apply (skipped_entries_are_inert Sample.log Sample.polyfit Sample.corrcoef Sample.pow
           (World Sample.four_readings []) [] four_readings_ok).
Defined.

Lemma regression_points_aligned_witness :
  exists (body : gmap string json) (X Y : list float),
    (calculate_band_gap Sample.log Sample.polyfit Sample.corrcoef Sample.pow
       (World Sample.four_readings [])).1 = Ok (JObj body, 200) /\
    body !! "regression_points" =
      Some (JObj {[ "inv_T" := JArr (JFloat <$> X);
                    "ln_I" := JArr (JFloat <$> Y) ]}) /\
    length X = length Y /\
    length X = length (List.filter included Sample.four_readings) /\
    (2 <= length X)%nat.
Proof.
  eexists.
  edestruct (regression_points_aligned Sample.log Sample.polyfit Sample.corrcoef
               Sample.pow (World Sample.four_readings []))
    as (X & Y & H1 & H2 & H3 & H4).
  - exact four_readings_ok.
  - reflexivity.
  - exists X, Y. split; [reflexivity|]. by repeat split.
Defined.

Lemma working_set_grows_by_appending_witness :
  exists X Y X' Y' : list float,
    transform_loop Sample.log Sample.four_readings [] [] = Ok (X, Y) /\
    transform_loop Sample.log
      (EXPERIMENTAL_DATA_LOG
         (serve Sample.float_of_str Sample.print_ok Sample.log Sample.polyfit Sample.corrcoef Sample.pow
            [PostLogData (Ok (JObj Sample.good_payload))]
            (World Sample.four_readings [])).2) [] [] = Ok (X', Y') /\
    length X = 3%nat /\ length X' = 4%nat /\
    X `prefix_of` X' /\ Y `prefix_of` Y'.
Proof.
  eexists _, _, _, _.
  split; [vm_compute; reflexivity|]. split; [vm_compute; reflexivity|].
  split; [reflexivity|]. split; [reflexivity|].
  apply (working_set_grows_by_appending Sample.float_of_str Sample.print_ok Sample.log Sample.polyfit
           Sample.corrcoef Sample.pow (World Sample.four_readings [])
           [PostLogData (Ok (JObj Sample.good_payload))]).
  - vm_compute. reflexivity.
  - vm_compute. reflexivity.
Defined.

Lemma other_voltages_ok :
  log_ok [Sample.reading 25 0.001 0.1; Sample.reading 30 1e-10 0.2;
          Sample.reading 50 0.002 0.3; Sample.reading 75 0.004 0.4].
Proof. repeat constructor; by eexists. Defined.

Lemma estimator_reads_two_fields_witness :
  (calculate_band_gap Sample.log Sample.polyfit Sample.corrcoef Sample.pow
     (World Sample.four_readings [])).1 =
  (calculate_band_gap Sample.log Sample.polyfit Sample.corrcoef Sample.pow
     (World [Sample.reading 25 0.001 0.1; Sample.reading 30 1e-10 0.2;
             Sample.reading 50 0.002 0.3; Sample.reading 75 0.004 0.4] [])).1.
Proof.
  apply (estimator_reads_two_fields Sample.log Sample.polyfit Sample.corrcoef Sample.pow
           Sample.four_readings _ [] [] four_readings_ok other_voltages_ok).
  - vm_compute. reflexivity.
  - vm_compute. reflexivity.
Defined.

Lemma harmless_absolute_zero_ok :
  log_ok [Sample.reading 25 0.001 0.5; Sample.reading (-273.15) 1e-10 0.5].
Proof. repeat constructor; by eexists. Defined.

Lemma harmless_absolute_zero_above (d : gmap string json) :
  d ∈ [Sample.reading 25 0.001 0.5; Sample.reading (-273.15) 1e-10 0.5] ->
  included d = true -> temperature_of d <> (-273.15)%float.
Proof.
  intros Hd Hi.
  repeat (apply elem_of_cons in Hd as [->|Hd]);
    [apply float_neq; vm_compute; discriminate
    |vm_compute in Hi; discriminate Hi|].
  by apply not_elem_of_nil in Hd.
Defined.

Lemma insufficient_data_iff_witness :
  ((calculate_band_gap Sample.log Sample.polyfit Sample.corrcoef Sample.pow
      (World [Sample.reading 25 0.001 0.5; Sample.reading (-273.15) 1e-10 0.5] [])).1 =
     Ok (error_body not_enough_msg, 400) <->
   (length (List.filter included
              [Sample.reading 25 0.001 0.5; Sample.reading (-273.15) 1e-10 0.5]) < 2)%nat) /\
  ((length (List.filter included
              [Sample.reading 25 0.001 0.5; Sample.reading (-273.15) 1e-10 0.5]) < 2)%nat ->
   (calculate_band_gap Sample.log Sample.polyfit Sample.corrcoef Sample.pow
      (World [Sample.reading 25 0.001 0.5; Sample.reading (-273.15) 1e-10 0.5] [])).2 =
   World [Sample.reading 25 0.001 0.5; Sample.reading (-273.15) 1e-10 0.5] []).
Proof.
  apply (insufficient_data_iff Sample.log Sample.polyfit Sample.corrcoef Sample.pow
           (World [Sample.reading 25 0.001 0.5; Sample.reading (-273.15) 1e-10 0.5] [])
           harmless_absolute_zero_ok harmless_absolute_zero_above).
Defined.

Lemma unchecked_values_ok :
  entry_ok (Sample.reading nan (-1) infinity).
Proof. repeat split; by eexists. Defined.

Lemma log_data_has_no_range_check_witness :
  (log_data Sample.float_of_str Sample.print_ok
     (Ok (JObj (Sample.reading nan (-1) infinity)))
     (World Sample.four_readings [])).2 =
    {| EXPERIMENTAL_DATA_LOG :=
         EXPERIMENTAL_DATA_LOG (World Sample.four_readings []) ++
         [Sample.reading nan (-1) infinity];
       numpy_calls := numpy_calls (World Sample.four_readings []) |} /\
  (log_data Sample.float_of_str Sample.print_ok
     (Ok (JObj (Sample.reading nan (-1) infinity)))
     (World Sample.four_readings [])).1 =
    Ok (JObj {[ "message" := JStr "Data logged successfully";
                "id" := JInt (Z.of_nat (length (EXPERIMENTAL_DATA_LOG
                                                  (World Sample.four_readings [])))) ]},
        201).
Proof.
  destruct (log_data_has_no_range_check Sample.float_of_str Sample.print_ok
              (Sample.reading nan (-1) infinity) (World Sample.four_readings [])
              unchecked_values_ok) as (Hstate & Hok & _).
  split; [exact Hstate|]. apply Hok. exists tt. reflexivity.
Defined.

Lemma log_data_print_failure_witness :
  log_data Sample.float_of_str Sample.print_ascii (Ok (JObj Sample.good_payload))
    initial_world =
    (Ok (error_body
           "Failed to log data: 'ascii' codec can't encode character '\xb0' in position 19: ordinal not in range(128)",
         500),
     {| EXPERIMENTAL_DATA_LOG :=
          EXPERIMENTAL_DATA_LOG initial_world ++ [Sample.reading 25 0.001 1];
        numpy_calls := numpy_calls initial_world |}) /\
  py_float Sample.float_of_str (dict_get Sample.good_payload "temperature") =
    Ok (temperature_of (Sample.reading 25 0.001 1)) /\
  py_float Sample.float_of_str (dict_get Sample.good_payload "current") =
    Ok (current_of (Sample.reading 25 0.001 1)).
Proof.
  apply (log_data_print_failure Sample.float_of_str Sample.print_ascii
           Sample.good_payload (Sample.reading 25 0.001 1)
           (Exc "UnicodeEncodeError"
              "'ascii' codec can't encode character '\xb0' in position 19: ordinal not in range(128)")
           initial_world).
  - vm_compute. reflexivity.
  - reflexivity.
Defined.

(** C7 (the code when the print raises).  On a standard output that cannot
    encode the degree sign of line 45, a POST with three valid fields is
    answered 500, not 201, and its reading is in the list all the same: no
    ingestion has succeeded, yet [get_all_data] returns one reading and a
    count of 1. *)
Theorem ingestion_count_print_failure :
  (serve Sample.float_of_str Sample.print_ascii Sample.log Sample.polyfit
     Sample.corrcoef Sample.pow
     [PostLogData (Ok (JObj Sample.good_payload))] initial_world).1 =
    [Ok (error_body
           "Failed to log data: 'ascii' codec can't encode character '\xb0' in position 19: ordinal not in range(128)",
         500)] /\
  count_created
    (serve Sample.float_of_str Sample.print_ascii Sample.log Sample.polyfit
       Sample.corrcoef Sample.pow
       [PostLogData (Ok (JObj Sample.good_payload))] initial_world).1 = 0%nat /\
  (get_all_data
     (serve Sample.float_of_str Sample.print_ascii Sample.log Sample.polyfit
        Sample.corrcoef Sample.pow
        [PostLogData (Ok (JObj Sample.good_payload))] initial_world).2).1 =
    Ok (JObj {[ "data" := JArr [JObj (Sample.reading 25 0.001 1)];
                "count" := JInt 1 ]}, 200).
Proof.
  split; [by vm_compute|]. split; by vm_compute.
Qed.
